(** * Web-Scraper: a shallow embedding of [web_scraper.py]

    The scrape pipeline of [WebScraper] ([fetch_page], [scrape_products],
    [_parse_product_listing], [_get_product_details]) is translated to Rocq
    functions over an explicit scraper state.  Python exceptions are values
    of the type [Exc]; the [try]/[except] blocks of the source become
    handlers that catch exactly the exception classes the source names. *)

From Stdlib Require Import List String Ascii ZArith QArith Bool Lia.
From Stdlib Require Import DecimalString DecimalPos DecimalZ FinFun.
From Equations Require Import Equations.
Import ListNotations.

Set Warnings "-register-all".

Local Open Scope string_scope.
Local Open Scope Z_scope.

(** ** Python exceptions *)

(** The exception classes that the modelled code can raise. *)
Inductive PyExn : Type :=
| AttributeError
| ValueError
| TypeError
| KeyError.

Definition PyExn_eqb (a b : PyExn) : bool :=
  match a, b with
  | AttributeError, AttributeError => true
  | ValueError, ValueError => true
  | TypeError, TypeError => true
  | KeyError, KeyError => true
  | _, _ => false
  end.

(** Outcome of evaluating a Python expression. *)
Inductive Exc (A : Type) : Type :=
| Ok (a : A)
| Raise (e : PyExn).

Arguments Ok {A} a.
Arguments Raise {A} e.

Definition exc_bind {A B} (m : Exc A) (k : A -> Exc B) : Exc B :=
  match m with
  | Ok a => k a
  | Raise e => Raise e
  end.

(** [except (E1, E2, ...)]: does the clause catch [e]?  None of the four
    classes above is a subclass of another one of them. *)
Definition catches (classes : list PyExn) (e : PyExn) : bool :=
  existsb (PyExn_eqb e) classes.

(** ** Python [str] methods *)

(** A text is a [string] whose characters are the code points 0 to 255
    (ASCII and Latin-1); texts with higher code points are outside the
    model. *)

Module PyStr.

(** [str.isspace] on one character: TAB, LF, VT, FF, CR, the separators
    0x1c-0x1f, the space, NEL (0x85) and the no-break space (0xa0). *)
Definition isspace (c : ascii) : bool :=
  let n := N_of_ascii c in
  ((9 <=? n) && (n <=? 13) || (28 <=? n) && (n <=? 32)
   || (n =? 133) || (n =? 160))%N.

Fixpoint lstrip (s : string) : string :=
  match s with
  | String c r => if isspace c then lstrip r else s
  | EmptyString => EmptyString
  end.

(** Drops trailing whitespace: a character is kept when it is not a space
    or when something is kept after it. *)
Fixpoint rstrip (s : string) : string :=
  match s with
  | String c r =>
      match rstrip r with
      | EmptyString => if isspace c then EmptyString else String c EmptyString
      | r' => String c r'
      end
  | EmptyString => EmptyString
  end.

(** [s.strip()] *)
Definition strip (s : string) : string := rstrip (lstrip s).

(** [s.replace(c, '')] for a one-character pattern [c]. *)
Fixpoint remove_char (c : ascii) (s : string) : string :=
  match s with
  | String d r => if Ascii.eqb c d then remove_char c r
                  else String d (remove_char c r)
  | EmptyString => EmptyString
  end.

(** The lower case of one character: A-Z, and the Latin-1 capitals
    0xc0-0xde but the multiplication sign 0xd7, are moved up by 32. *)
Definition lower_char (c : ascii) : ascii :=
  let n := N_of_ascii c in
  if ((65 <=? n) && (n <=? 90)
      || (192 <=? n) && (n <=? 222) && negb (n =? 215))%N
  then ascii_of_N (n + 32) else c.

(** [s.lower()] *)
Fixpoint lower (s : string) : string :=
  match s with
  | String c r => String (lower_char c) (lower r)
  | EmptyString => EmptyString
  end.

(** [s.startswith(p)] *)
Fixpoint startswith (p s : string) : bool :=
  match p, s with
  | EmptyString, _ => true
  | String a p', String b s' => Ascii.eqb a b && startswith p' s'
  | String _ _, EmptyString => false
  end.

(** [p in s] *)
Fixpoint contains (p s : string) : bool :=
  startswith p s ||
  match s with
  | String _ s' => contains p s'
  | EmptyString => false
  end.

(** [str(n)] for an [int]. *)
Definition of_int (n : Z) : string := NilZero.string_of_int (Z.to_int n).

End PyStr.

(** ** Python [float(str)] *)

(** A Python float, kept as the exact decimal the literal denotes.  CPython
    rounds that decimal to the nearest binary64; the rounding is the same
    for the text ["19.99"] and for the source literal [19.99], so comparing
    the decimals compares the floats.  A decimal too large for a binary64
    is an infinity, as in CPython, and [-0.0] is kept apart from [0.0];
    the underflow of a decimal too small for a binary64 is not modelled. *)
Inductive pyfloat : Type :=
| FFinite (q : Q)
| FNegZero
| FInf (negative : bool)
| FNan.

Module PyFloat.

(** The white space [float] ignores around the number: that of C's
    [isspace] (TAB, LF, VT, FF, CR, space), and the white space above
    ASCII, which [float] turns into spaces first.  The separators
    0x1c-0x1f are not part of it. *)
Definition isspace (c : ascii) : bool :=
  let n := N_of_ascii c in
  ((9 <=? n) && (n <=? 13) || (n =? 32) || (n =? 133) || (n =? 160))%N.

Fixpoint lstrip (s : string) : string :=
  match s with
  | String c r => if isspace c then lstrip r else s
  | EmptyString => EmptyString
  end.

Fixpoint rstrip (s : string) : string :=
  match s with
  | String c r =>
      match rstrip r with
      | EmptyString => if isspace c then EmptyString else String c EmptyString
      | r' => String c r'
      end
  | EmptyString => EmptyString
  end.

Definition strip (s : string) : string := rstrip (lstrip s).

Definition is_digit (c : ascii) : bool :=
  let n := N_of_ascii c in ((48 <=? n) && (n <=? 57))%N.

Definition digit_val (c : ascii) : Z := Z.of_N (N_of_ascii c) - 48.

(** The rest of a [digitpart] after its first digit:
    [digit (["_"] digit)*].  Returns the value read so far, the number of
    digits read and the unread text. *)
Fixpoint digitpart_rest (acc : Z) (n : Z) (s : string) : Z * Z * string :=
  match s with
  | String c r =>
      if is_digit c then digitpart_rest (10 * acc + digit_val c) (n + 1) r
      else if Ascii.eqb c "_" then
        match r with
        | String c2 r2 =>
            if is_digit c2
            then digitpart_rest (10 * acc + digit_val c2) (n + 1) r2
            else (acc, n, s)
        | EmptyString => (acc, n, s)
        end
      else (acc, n, s)
  | EmptyString => (acc, n, s)
  end.

Definition digitpart (s : string) : option (Z * Z * string) :=
  match s with
  | String c r =>
      if is_digit c then Some (digitpart_rest (digit_val c) 1 r) else None
  | EmptyString => None
  end.

(** [number ::= [digitpart] "." digitpart | digitpart ["."]]: mantissa,
    decimal exponent and unread text. *)
Definition number (s : string) : option (Z * Z * string) :=
  match digitpart s with
  | Some (ip, _, rest) =>
      match rest with
      | String "." rest' =>
          match digitpart rest' with
          | Some (fp, k, rest'') => Some (ip * 10 ^ k + fp, - k, rest'')
          | None => Some (ip, 0, rest')
          end
      | _ => Some (ip, 0, rest)
      end
  | None =>
      match s with
      | String "." rest' =>
          match digitpart rest' with
          | Some (fp, k, rest'') => Some (fp, - k, rest'')
          | None => None
          end
      | _ => None
      end
  end.

(** [[sign]]: is it negative, and the text after it. *)
Definition sign (s : string) : bool * string :=
  match s with
  | String "+" r => (false, r)
  | String "-" r => (true, r)
  | _ => (false, s)
  end.

(** [exponent ::= ("e" | "E") [sign] digitpart], or nothing. *)
Definition exponent (s : string) : option (Z * string) :=
  match s with
  | String c r =>
      if Ascii.eqb c "e" || Ascii.eqb c "E" then
        let '(neg, r') := sign r in
        match digitpart r' with
        | Some (e, _, rest) => Some (if neg then - e else e, rest)
        | None => None
        end
      else Some (0, s)
  | EmptyString => Some (0, s)
  end.

(** The rational [m * 10^e], in lowest terms. *)
Definition decimal (m e : Z) : Q :=
  Qred (if 0 <=? e then (m * 10 ^ e) # 1
        else m # Z.to_pos (10 ^ (- e))).

(** [floatnumber ::= number [exponent]], to the end of the text. *)
Definition floatnumber (s : string) : option Q :=
  match number s with
  | Some (m, e, rest) =>
      match exponent rest with
      | Some (x, EmptyString) => Some (decimal m (e + x))
      | _ => None
      end
  | None => None
  end.

(** Half way between the largest binary64 and [2 ^ 1024]: from there on a
    decimal rounds to infinity. *)
Definition overflow_threshold : Z := 2 ^ 1024 - 2 ^ 970.

(** The float of sign [neg] and magnitude [q]. *)
Definition signed (neg : bool) (q : Q) : pyfloat :=
  if Qle_bool (overflow_threshold # 1) q then FInf neg
  else if neg then (if Qeq_bool q 0 then FNegZero else FFinite (Qred (- q)))
  else FFinite q.

(** [float(s)]: surrounding whitespace is ignored; an optional sign, then
    ["inf"], ["infinity"] or ["nan"] in any case, or a decimal number.
    Anything else is a [ValueError]. *)
Definition of_str (s : string) : Exc pyfloat :=
  let '(neg, body) := sign (strip s) in
  let low := PyStr.lower body in
  if String.eqb low "inf" || String.eqb low "infinity" then Ok (FInf neg)
  else if String.eqb low "nan" then Ok FNan
  else
    match floatnumber body with
    | Some q => Ok (signed neg q)
    | None => Raise ValueError
    end.

End PyFloat.

(** ** The parsed document (BeautifulSoup) *)

(** A [Tag] as the scraper sees it: its text, its attributes, and for each
    CSS selector the scraper may ask, the descendants that match it in
    document order.  The selector engine itself is the library's. *)
Inductive Tag : Type :=
| mkTag (text : string)
        (attrs : list (string * string))
        (matches : list (string * list Tag)).

Definition tag_text (t : Tag) : string :=
  let 'mkTag text _ _ := t in text.

Definition tag_attrs (t : Tag) : list (string * string) :=
  let 'mkTag _ attrs _ := t in attrs.

Definition tag_matches (t : Tag) : list (string * list Tag) :=
  let 'mkTag _ _ matches := t in matches.

Fixpoint lookup {V : Type} (k : string) (l : list (string * V)) : option V :=
  match l with
  | [] => None
  | (k', v) :: r => if String.eqb k k' then Some v else lookup k r
  end.

(** [tag.select(selector)] *)
Definition select (t : Tag) (selector : string) : list Tag :=
  match lookup selector (tag_matches t) with
  | Some l => l
  | None => []
  end.

(** [tag.select_one(selector)]: the first match, or [None]. *)
Definition select_one (t : Tag) (selector : string) : option Tag :=
  hd_error (select t selector).

(** [x.text] where [x] is a [Tag] or [None]. *)
Definition text_of (x : option Tag) : Exc string :=
  match x with
  | Some t => Ok (tag_text t)
  | None => Raise AttributeError
  end.

(** [x[key]] where [x] is a [Tag] or [None]: subscripting [None] is a
    [TypeError], a missing attribute is a [KeyError]. *)
Definition getitem (x : option Tag) (key : string) : Exc string :=
  match x with
  | Some t =>
      match lookup key (tag_attrs t) with
      | Some v => Ok v
      | None => Raise KeyError
      end
  | None => Raise TypeError
  end.

(** ** The data model *)

Record Product : Type := mkProduct {
  name : string;
  price : pyfloat;
  description : string;
  rating : pyfloat;
  url : string;
  category : option string;
  in_stock : bool
}.

(** The [details] dict of [_get_product_details]: the two keys the code
    ever stores, each present or not. *)
Record Details : Type := mkDetails {
  d_category : option string;
  d_in_stock : option bool
}.

(** [{}] *)
Definition no_details : Details :=
  {| d_category := None; d_in_stock := None |}.

(** Who called [fetch_page]; recorded in the request log only. *)
Inductive Caller : Type := Listing | Detail.

(** One call of [session.get], with what [fetch_page] made of it. *)
Record Request : Type := mkRequest {
  req_by : Caller;
  req_url : string;
  req_resp : option Tag
}.

(** [WebScraper]: its two data attributes, and the log of the requests
    issued through its session, oldest first. *)
Record WebScraper : Type := mkScraper {
  base_url : string;
  scraped_data : list Product;
  requests : list Request
}.

(** [WebScraper.__init__] *)
Definition init (base : string) : WebScraper :=
  {| base_url := base; scraped_data := []; requests := [] |}.

(** A method body: runs on a scraper, returns or raises, and leaves the
    scraper as it is at that point. *)
Definition M (A : Type) : Type := WebScraper -> Exc A * WebScraper.

Definition ret {A} (a : A) : M A := fun st => (Ok a, st).

Definition bind {A B} (m : M A) (k : A -> M B) : M B :=
  fun st =>
    match m st with
    | (Ok a, st') => k a st'
    | (Raise e, st') => (Raise e, st')
    end.

(** A pure expression that may raise. *)
Definition lift {A} (x : Exc A) : M A := fun st => (x, st).

Declare Scope py_scope.
Delimit Scope py_scope with py.
Notation "x <- m ;; k" := (bind m (fun x => k))
  (at level 61, m at next level, right associativity) : py_scope.
Notation "x <~ m ;; k" := (exc_bind m (fun x => k))
  (at level 61, m at next level, right associativity) : py_scope.

Local Open Scope py_scope.

(** [except (classes): handler] around a block. *)
Definition try_except {A} (body : M A) (classes : list PyExn)
    (handler : M A) : M A :=
  fun st =>
    match body st with
    | (Ok a, st') => (Ok a, st')
    | (Raise e, st') =>
        if catches classes e then handler st' else (Raise e, st')
    end.

(** What the server answers to a GET, given the URLs requested before it:
    the parsed page, or [None] for any [requests.RequestException]. *)
Definition Site : Type := list string -> string -> option Tag.

(** ** The scraper *)

Section Scraper.

(** The web site being scraped. *)
Variable site : Site.

(** [urllib.parse.urljoin]; it may raise. *)
Variable urljoin : string -> string -> Exc string.

(** [fetch_page]: any transport failure is answered with [None].  The
    delay before the request and the headers of the session are not
    modelled.  [who] is not an argument of the source: it tags the entry of
    the request log. *)
Definition fetch_page (who : Caller) (url : string) : M (option Tag) :=
  fun st =>
    let soup := site (map req_url (requests st)) url in
    (Ok soup,
     {| base_url := base_url st;
        scraped_data := scraped_data st;
        requests := (requests st ++ [mkRequest who url soup])%list |}).

(** The [try] block of [_get_product_details]. *)
Definition read_details (soup : Tag) : Exc Details :=
  crumb <~ text_of (select_one soup ".breadcrumb a:last-child") ;;
  let category := PyStr.strip crumb in
  status <~ text_of (select_one soup ".stock-status") ;;
  let stock_status := PyStr.lower (PyStr.strip status) in
  Ok {| d_category := Some category;
        d_in_stock := Some (PyStr.contains "in stock" stock_status) |}.

Definition _get_product_details (url : string) : M Details :=
  soup <- fetch_page Detail url ;;
  match soup with
  | None => ret no_details
  | Some doc =>
      try_except (lift (read_details doc)) [AttributeError] (ret no_details)
  end.

(** Lines 74-81, the fields read from the card itself: name, price,
    description, rating and absolute URL, in the order of the source. *)
Definition card_fields (base : string) (card : Tag)
    : Exc (string * pyfloat * string * pyfloat * string) :=
  name <~ text_of (select_one card ".product-name") ;;
  let name := PyStr.strip name in
  price_text <~ text_of (select_one card ".product-price") ;;
  let price_str := PyStr.remove_char "$" (PyStr.strip price_text) in
  price <~ PyFloat.of_str price_str ;;
  description <~ text_of (select_one card ".product-description") ;;
  let description := PyStr.strip description in
  rating_str <~ getitem (select_one card ".product-rating") "data-rating" ;;
  rating <~ PyFloat.of_str rating_str ;;
  relative_url <~ getitem (select_one card "a") "href" ;;
  full_url <~ urljoin base relative_url ;;
  Ok (name, price, description, rating, full_url).

(** [Product(..., category=product_details.get('category'),
    in_stock=product_details.get('in_stock', True))] *)
Definition make_product
    (fields : string * pyfloat * string * pyfloat * string)
    (product_details : Details) : Product :=
  let '(name, price, description, rating, full_url) := fields in
  {| name := name;
     price := price;
     description := description;
     rating := rating;
     url := full_url;
     category := d_category product_details;
     in_stock := match d_in_stock product_details with
                 | Some b => b
                 | None => true
                 end |}.

(** The [try] block of the loop of [_parse_product_listing], up to the
    construction of the [Product]. *)
Definition parse_card (card : Tag) : M Product :=
  fields <- (fun st => lift (card_fields (base_url st) card) st) ;;
  product_details <- _get_product_details (snd fields) ;;
  ret (make_product fields product_details).

(** One turn of the loop over the cards:
    [try: ... products.append(...)
     except (AttributeError, ValueError): continue] *)
Definition parse_card_step (card : Tag) (products : list Product)
    : M (list Product) :=
  try_except
    (p <- parse_card card ;; ret (products ++ [p])%list)
    [AttributeError; ValueError]
    (ret products).

(** [for card in product_cards: ...] *)
Fixpoint parse_cards (product_cards : list Tag) (products : list Product)
    : M (list Product) :=
  match product_cards with
  | [] => ret products
  | card :: rest =>
      products' <- parse_card_step card products ;;
      parse_cards rest products'
  end.

Definition _parse_product_listing (soup : Tag) : M (list Product) :=
  parse_cards (select soup ".product-card") [].

(** [self.scraped_data.extend(products)] *)
Definition extend_scraped_data (products : list Product) : M unit :=
  fun st =>
    (Ok tt,
     {| base_url := base_url st;
        scraped_data := (scraped_data st ++ products)%list;
        requests := requests st |}).

(** The URL of listing page [page]. *)
Definition listing_url (base category : string) (page : Z) : string :=
  if negb (String.eqb category "all")
  then base ++ "/products/" ++ category ++ "?page=" ++ PyStr.of_int page
  else base ++ "/products?page=" ++ PyStr.of_int page.

(** How one turn of the [while] loop ends. *)
Inductive Ctl : Type := Next | Break.

(** The body of the loop of [scrape_products], up to [page += 1].
    [if not soup] tests for [None] (a [BeautifulSoup] object is always
    true), [if not products] for the empty list. *)
Definition scrape_page (category : string) (page : Z) : M Ctl :=
  url <- (fun st => ret (listing_url (base_url st) category page) st) ;;
  soup <- fetch_page Listing url ;;
  match soup with
  | None => ret Break
  | Some doc =>
      products <- _parse_product_listing doc ;;
      match products with
      | [] => ret Break
      | _ :: _ =>
          _ <- extend_scraped_data products ;;
          ret Next
      end
  end.

(** [while page <= max_pages: ...] *)
Equations? scrape_loop (category : string) (max_pages page : Z)
    (st : WebScraper) : Exc unit * WebScraper
    by wf (Z.to_nat (max_pages + 1 - page)) lt :=
  scrape_loop category max_pages page st with Z_le_gt_dec page max_pages := {
    | left _ with scrape_page category page st := {
        | (Ok Next, st') => scrape_loop category max_pages (page + 1) st'
        | (Ok Break, st') => (Ok tt, st')
        | (Raise e, st') => (Raise e, st') };
    | right _ => (Ok tt, st) }.
Proof. lia. Qed.

(** [scrape_products] *)
Definition scrape_products (category : string) (max_pages : Z)
    : M unit :=
  scrape_loop category max_pages 1.

End Scraper.

(** ** Export and command line *)

Section ExportLayer.

Variable site : Site.
Variable urljoin : string -> string -> Exc string.

(** The file system, and what becomes of it when a file is opened for
    writing and a text is written to it; when that raises an [IOError], the
    result is the file system the failed attempt leaves behind. *)
Variable FS : Type.
Variable write_file : FS -> string -> string -> FS.

(** What [csv.DictWriter] (header row, then one row per record) and
    [json.dump] write for a list of records. *)
Variable csv_text : list Product -> string.
Variable json_text : list Product -> string.

(** [export_to_csv]: nothing is opened when there is no record; an
    [IOError] is caught and reported.  Console output is not modelled. *)
Definition export_to_csv (filename : string) (st : WebScraper) (fs : FS)
    : FS :=
  match scraped_data st with
  | [] => fs
  | _ :: _ => write_file fs filename (csv_text (scraped_data st))
  end.

(** [export_to_json] *)
Definition export_to_json (filename : string) (st : WebScraper) (fs : FS)
    : FS :=
  match scraped_data st with
  | [] => fs
  | _ :: _ => write_file fs filename (json_text (scraped_data st))
  end.

(** [main], from the parsed arguments on: a new scraper on [BASE_URL], the
    scrape, then the exports asked for, each to its default file.  An
    exception of the scrape ends the program before any export. *)
Definition main (category : string) (pages : Z) (csv json : bool) (fs : FS)
    : Exc unit * WebScraper * FS :=
  let scraper := init "https://scrape-test-site.vercel.app" in
  match scrape_products site urljoin category pages scraper with
  | (Raise e, scraper') => (Raise e, scraper', fs)
  | (Ok _, scraper') =>
      let fs1 := if csv then export_to_csv "products.csv" scraper' fs
                 else fs in
      let fs2 := if json then export_to_json "products.json" scraper' fs1
                 else fs1 in
      (Ok tt, scraper', fs2)
  end.

End ExportLayer.

(** ** A sample site *)

Module Sample.

(** [BASE_URL] and [MAX_PAGES] *)
Definition BASE_URL : string := "https://scrape-test-site.vercel.app".
Definition MAX_PAGES : Z := 3.

(** [urljoin(base, rel)] where [base] has no path and [rel] is an absolute
    path: the path is put after the host. *)
Definition urljoin_rooted (base rel : string) : Exc string :=
  Ok (base ++ rel).

Definition leaf (text : string) : Tag := mkTag text [] [].

Definition with_attr (key value : string) : Tag :=
  mkTag "" [(key, value)] [].

(** A well-formed product card. *)
Definition card (name price description rating href : string) : Tag :=
  mkTag "" []
    [(".product-name", [leaf name]);
     (".product-price", [leaf price]);
     (".product-description", [leaf description]);
     (".product-rating", [with_attr "data-rating" rating]);
     ("a", [with_attr "href" href])].

Definition lamp : Tag :=
  card " Desk lamp " "$19.99" "A lamp." "4.5" "/product/1".

Definition mug : Tag :=
  card "Mug" "$7.50" "A mug." "3" "/product/2".

(** A card whose price has no numeric body. *)
Definition unpriced : Tag :=
  card "Ghost" "$" "No price." "1" "/product/3".

(** A card without a description element. *)
Definition undescribed : Tag :=
  mkTag "" []
    [(".product-name", [leaf "Bare"]);
     (".product-price", [leaf "$1.00"]);
     (".product-rating", [with_attr "data-rating" "2"]);
     ("a", [with_attr "href" "/product/4"])].

(** A card without a rating element. *)
Definition unrated : Tag :=
  mkTag "" []
    [(".product-name", [leaf "Plain"]);
     (".product-price", [leaf "$2.00"]);
     (".product-description", [leaf "No rating."]);
     ("a", [with_attr "href" "/product/5"])].

Definition listing (cards : list Tag) : Tag :=
  mkTag "" [] [(".product-card", cards)].

(** Detail pages: complete, without stock status, without breadcrumb. *)
Definition detail_full : Tag :=
  mkTag "" []
    [(".breadcrumb a:last-child", [leaf " Lighting "]);
     (".stock-status", [leaf "In Stock"])].

Definition detail_sold_out : Tag :=
  mkTag "" []
    [(".breadcrumb a:last-child", [leaf "Kitchen"]);
     (".stock-status", [leaf "Sold out"])].

Definition detail_no_stock : Tag :=
  mkTag "" [] [(".breadcrumb a:last-child", [leaf "Lighting"])].

Definition detail_no_crumb : Tag :=
  mkTag "" [] [(".stock-status", [leaf "in stock"])].

(** A static site given by its pages; any other URL fails. *)
Definition static (pages : list (string * Tag)) : Site :=
  fun _ url => lookup url pages.

(** One listing page with the lamp and the mug; page 2 is empty. *)
Definition shop : Site :=
  static
    [(BASE_URL ++ "/products?page=1", listing [lamp; mug]);
     (BASE_URL ++ "/products?page=2", listing []);
     (BASE_URL ++ "/product/1", detail_full);
     (BASE_URL ++ "/product/2", detail_sold_out)].

(** The shop with no detail page: every detail fetch fails. *)
Definition bare_shop : Site :=
  static [(BASE_URL ++ "/products?page=1", listing [lamp; mug])].

(** A shop whose first page has a card without rating before the lamp. *)
Definition unrated_shop : Site :=
  static
    [(BASE_URL ++ "/products?page=1", listing [unrated; lamp]);
     (BASE_URL ++ "/product/1", detail_full)].

(** A two-page catalog: two good cards around a card without price on
    page 1, one card on page 2, an empty page 3. *)
Definition catalog : Site :=
  static
    [(BASE_URL ++ "/products?page=1", listing [lamp; unpriced; mug]);
     (BASE_URL ++ "/products?page=2", listing [lamp]);
     (BASE_URL ++ "/products?page=3", listing []);
     (BASE_URL ++ "/product/1", detail_full);
     (BASE_URL ++ "/product/2", detail_sold_out)].

(** A card with neither name nor price. *)
Definition blank : Tag := mkTag "" [] [].

(** A shop whose first page has nothing but unusable cards. *)
Definition junk_shop : Site :=
  static
    [(BASE_URL ++ "/products?page=1", listing [unpriced; blank]);
     (BASE_URL ++ "/products?page=2", listing [lamp]);
     (BASE_URL ++ "/product/1", detail_full)].

(** A disk as the list of its files, the last written first. *)
Definition disk : Type := list (string * string).

Definition write_disk (fs : disk) (filename text : string) : disk :=
  (filename, text) :: fs.

(** The record of the lamp on a site that serves [detail_full] for it. *)
Definition lamp_record : Product :=
  {| name := "Desk lamp";
     price := FFinite (1999 # 100);
     description := "A lamp.";
     rating := FFinite (9 # 2);
     url := BASE_URL ++ "/product/1";
     category := Some "Lighting";
     in_stock := true |}.

(** A stand-in for the two writers: the names, separated by commas. *)
Definition names_text (l : list Product) : string :=
  String.concat "," (map name l).

(** A one-page site serving [doc] for every URL. *)
Definition mirror (doc : Tag) : Site := fun _ _ => Some doc.

End Sample.

(** ** Vocabulary of the properties *)

Section Vocabulary.

Variable site : Site.
Variable urljoin : string -> string -> Exc string.

(** The scraper after one more request. *)
Definition logged (who : Caller) (url : string) (st : WebScraper)
    : WebScraper :=
  {| base_url := base_url st;
     scraped_data := scraped_data st;
     requests := (requests st ++
                  [mkRequest who url (site (map req_url (requests st)) url)])%list
  |}.

(** What [_get_product_details] makes of the answer to its request. *)
Definition details_of_response (resp : option Tag) : Details :=
  match resp with
  | None => no_details
  | Some doc =>
      match read_details doc with
      | Ok d => d
      | Raise _ => no_details
      end
  end.

(** The five listing fields of a card, each on its own. *)
Definition name_parses (card : Tag) : Prop :=
  exists s, text_of (select_one card ".product-name") = Ok s.

Definition price_parses (card : Tag) : Prop :=
  exists t x,
    text_of (select_one card ".product-price") = Ok t /\
    PyFloat.of_str (PyStr.remove_char "$" (PyStr.strip t)) = Ok x.

Definition description_parses (card : Tag) : Prop :=
  exists s, text_of (select_one card ".product-description") = Ok s.

Definition rating_parses (card : Tag) : Prop :=
  exists t x,
    getitem (select_one card ".product-rating") "data-rating" = Ok t /\
    PyFloat.of_str t = Ok x.

Definition link_parses (base : string) (card : Tag) : Prop :=
  exists h u,
    getitem (select_one card "a") "href" = Ok h /\ urljoin base h = Ok u.

(** Turn [parse_card_step] appends a record for [card]. *)
Definition record_added (card : Tag) (products : list Product)
    (st : WebScraper) : Prop :=
  exists p st',
    parse_card_step site urljoin card products st
    = (Ok (products ++ [p])%list, st').

(** [product_details.get('category')] and
    [product_details.get('in_stock', True)] written into a record. *)
Definition merge_details (p : Product) (product_details : Details)
    : Product :=
  {| name := name p;
     price := price p;
     description := description p;
     rating := rating p;
     url := url p;
     category := d_category product_details;
     in_stock := match d_in_stock product_details with
                 | Some b => b
                 | None => true
                 end |}.

(** The requests of [l] issued for listing pages. *)
Definition listing_requests (l : list Request) : list Request :=
  filter (fun r => match req_by r with Listing => true | Detail => false end)
         l.

(** A listing request that ends the run: the fetch failed, or the page has
    no product card. *)
Definition ends_run (r : Request) : Prop :=
  req_by r = Listing
  /\ (req_resp r = None
      \/ exists doc, req_resp r = Some doc
                     /\ select doc ".product-card" = []).

(** Nothing is requested after a listing request that ends the run. *)
Definition stops_at_failure (l : list Request) : Prop :=
  forall pre r post, l = (pre ++ r :: post)%list -> ends_run r -> post = [].

(** [st'] is [st] after some detail requests and nothing else. *)
Definition only_details (st st' : WebScraper) : Prop :=
  base_url st' = base_url st
  /\ scraped_data st' = scraped_data st
  /\ exists details,
       requests st' = (requests st ++ details)%list
       /\ Forall (fun q => req_by q = Detail) details.

(** The scraper with another result list. *)
Definition with_scraped_data (st : WebScraper) (l : list Product)
    : WebScraper :=
  {| base_url := base_url st; scraped_data := l; requests := requests st |}.

(** Pages [page], [page + 1], ... ([n] of them). *)
Fixpoint pages_from (page : Z) (n : nat) : list Z :=
  match n with
  | O => []
  | S k => page :: pages_from (page + 1) k
  end.

(** The listing fields a record was built from. *)
Definition fields_of (p : Product)
    : string * pyfloat * string * pyfloat * string :=
  (name p, price p, description p, rating p, url p).

(** The fields of the cards that parse, in the order of the cards. *)
Fixpoint valid_fields (base : string) (cards : list Tag)
    : list (string * pyfloat * string * pyfloat * string) :=
  match cards with
  | [] => []
  | card :: rest =>
      match card_fields urljoin base card with
      | Ok f => f :: valid_fields base rest
      | Raise _ => valid_fields base rest
      end
  end.

(** A card that parses, or fails with an exception of the [except]
    clause. *)
Definition well_behaved (base : string) (card : Tag) : Prop :=
  forall e,
    card_fields urljoin base card = Raise e ->
    catches [AttributeError; ValueError] e = true.

(** A card that fails with an exception of the [except] clause. *)
Definition malformed (base : string) (card : Tag) : Prop :=
  exists e,
    card_fields urljoin base card = Raise e
    /\ catches [AttributeError; ValueError] e = true.

(** The cards the loop over a page gets to: all of them, or those up to
    the first that fails with an exception outside the [except] clause. *)
Fixpoint reached (base : string) (cards : list Tag) : list Tag :=
  match cards with
  | [] => []
  | card :: rest =>
      match card_fields urljoin base card with
      | Ok _ => card :: reached base rest
      | Raise e =>
          if catches [AttributeError; ValueError] e
          then card :: reached base rest
          else [card]
      end
  end.

(** One turn of the pagination loop as the request log shows it: the
    listing request, and the detail requests made before the next one. *)
Definition Turn : Type := Request * list Request.

Definition turn_requests (t : Turn) : list Request := fst t :: snd t.

(** The product cards of the page a request was answered with. *)
Definition cards_of (r : Request) : list Tag :=
  match req_resp r with
  | None => []
  | Some doc => select doc ".product-card"
  end.

(** The detail requests of a turn are one for each card that parses among
    the cards the loop gets to, in the order of the cards, each to the URL
    of its card; no card has a second one, whatever the answer to the
    first. *)
Definition one_fetch_per_card (base : string) (t : Turn) : Prop :=
  req_by (fst t) = Listing
  /\ Forall (fun q => req_by q = Detail) (snd t)
  /\ map req_url (snd t)
     = map snd (valid_fields base (reached base (cards_of (fst t)))).

(** A listing request that gives no record: the fetch failed, or none of
    the cards of the page parses (a page without cards is one such). *)
Definition yields_nothing (base : string) (r : Request) : Prop :=
  req_resp r = None
  \/ exists doc, req_resp r = Some doc
                 /\ valid_fields base (select doc ".product-card") = [].

(** A turn whose listing request gives no record makes no detail request
    and is the last one. *)
Definition stops_on_nothing (base : string) (turns : list Turn) : Prop :=
  forall pre t post,
    turns = (pre ++ t :: post)%list ->
    yields_nothing base (fst t) ->
    snd t = [] /\ post = [].

(** The requests of [l] issued for detail pages. *)
Definition detail_requests (l : list Request) : list Request :=
  filter (fun r => match req_by r with Detail => true | Listing => false end)
         l.

(** Record [p] was enriched from the answer to the detail request [r]. *)
Definition enriched_by (p : Product) (r : Request) : Prop :=
  req_by r = Detail
  /\ req_url r = url p
  /\ category p = d_category (details_of_response (req_resp r))
  /\ in_stock p = match d_in_stock (details_of_response (req_resp r)) with
                  | Some b => b
                  | None => true
                  end.

(** A text that is not empty and does not end with white space. *)
Fixpoint ends_nonspace (p : string) : bool :=
  match p with
  | EmptyString => false
  | String a EmptyString => negb (PyStr.isspace a)
  | String _ p' => ends_nonspace p'
  end.

(** The number a text of decimal digits denotes, most significant digit
    first, on top of [acc]. *)
Fixpoint digits_value (s : string) (acc : Z) : option Z :=
  match s with
  | EmptyString => Some acc
  | String c r =>
      let d := Z.of_N (N_of_ascii c) - 48 in
      if (0 <=? d) && (d <=? 9) then digits_value r (10 * acc + d) else None
  end.

(** [s] is the decimal notation of the natural number [n]: digits only, at
    least one, no leading zero but for zero itself. *)
Definition unsigned_decimal (n : Z) (s : string) : Prop :=
  digits_value s 0 = Some n
  /\ match s with
     | EmptyString => False
     | String "0" r => r = EmptyString
     | String _ _ => True
     end.

(** [s] is what [str(n)] is for an [int]: the decimal notation of [n],
    after a minus sign when [n] is negative. *)
Definition is_decimal_of (n : Z) (s : string) : Prop :=
  match s with
  | String "-" r => n < 0 /\ unsigned_decimal (- n) r
  | _ => 0 <= n /\ unsigned_decimal n s
  end.

(** A text without white space at either end. *)
Definition trimmed (s : string) : bool :=
  match s with
  | EmptyString => true
  | String c _ => negb (PyStr.isspace c) && ends_nonspace s
  end.

End Vocabulary.

(** * Properties *)

Section Properties.

Variable site : Site.
Variable urljoin : string -> string -> Exc string.

(** ** Detail pages *)

Lemma fetch_page_eq who url st :
  fetch_page site who url st
  = (Ok (site (map req_url (requests st)) url), logged site who url st).
Proof. reflexivity. Qed.

(** The [try] block of [_get_product_details] raises nothing but
    [AttributeError]. *)
Lemma read_details_raise doc e :
  read_details doc = Raise e -> e = AttributeError.
Proof.
  unfold read_details, text_of.
  destruct (select_one doc ".breadcrumb a:last-child"); simpl;
    [ destruct (select_one doc ".stock-status"); simpl | ];
    congruence.
Qed.

Lemma get_product_details_eq url st :
  _get_product_details site url st
  = (Ok (details_of_response (site (map req_url (requests st)) url)),
     logged site Detail url st).
Proof.
  unfold _get_product_details, bind.
  rewrite fetch_page_eq.
  destruct (site (map req_url (requests st)) url) as [doc|]; simpl;
    [ | reflexivity ].
  unfold try_except, lift.
  destruct (read_details doc) as [d|e] eqn:E; [ reflexivity | ].
  apply read_details_raise in E. subst e. reflexivity.
Qed.

(** ** One card *)

Lemma parse_card_eq card st :
  parse_card site urljoin card st
  = match card_fields urljoin (base_url st) card with
    | Ok f =>
        (Ok (make_product f
               (details_of_response
                  (site (map req_url (requests st)) (snd f)))),
         logged site Detail (snd f) st)
    | Raise e => (Raise e, st)
    end.
Proof.
  unfold parse_card, bind, lift.
  destruct (card_fields urljoin (base_url st) card) as [f|e];
    [ | reflexivity ].
  rewrite get_product_details_eq. reflexivity.
Qed.

Lemma parse_card_step_eq card products st :
  parse_card_step site urljoin card products st
  = match card_fields urljoin (base_url st) card with
    | Ok f =>
        (Ok (products ++
             [make_product f
                (details_of_response
                   (site (map req_url (requests st)) (snd f)))])%list,
         logged site Detail (snd f) st)
    | Raise e =>
        if catches [AttributeError; ValueError] e
        then (Ok products, st) else (Raise e, st)
    end.
Proof.
  unfold parse_card_step, try_except, bind.
  rewrite parse_card_eq.
  destruct (card_fields urljoin (base_url st) card) as [f|e]; reflexivity.
Qed.

(** The listing fields of a card are read exactly when each of the five
    parses. *)
Lemma card_fields_ok_iff base card :
  (exists f, card_fields urljoin base card = Ok f)
  <-> name_parses card /\ price_parses card /\ description_parses card
      /\ rating_parses card /\ link_parses urljoin base card.
Proof.
  unfold card_fields, name_parses, price_parses, description_parses,
    rating_parses, link_parses.
  split.
  - intros [f H].
    destruct (text_of (select_one card ".product-name")) as [n|]; simpl in H;
      [ | discriminate ].
    destruct (text_of (select_one card ".product-price")) as [t|]; simpl in H;
      [ | discriminate ].
    destruct (PyFloat.of_str (PyStr.remove_char "$" (PyStr.strip t)))
      as [x|] eqn:Ex; simpl in H; [ | discriminate ].
    destruct (text_of (select_one card ".product-description")) as [d|];
      simpl in H; [ | discriminate ].
    destruct (getitem (select_one card ".product-rating") "data-rating")
      as [r|]; simpl in H; [ | discriminate ].
    destruct (PyFloat.of_str r) as [y|] eqn:Ey; simpl in H; [ | discriminate ].
    destruct (getitem (select_one card "a") "href") as [h|]; simpl in H;
      [ | discriminate ].
    destruct (urljoin base h) as [u|] eqn:Eu; simpl in H; [ | discriminate ].
    repeat split; eauto.
  - intros ([n Hn] & (t & x & Ht & Hx) & [d Hd] & (r & y & Hr & Hy)
            & (h & u & Hh & Hu)).
    rewrite Hn, Ht; simpl. rewrite Hx, Hd; simpl. rewrite Hr; simpl.
    rewrite Hy, Hh; simpl. rewrite Hu; simpl. eauto.
Qed.

Lemma app_singleton_neq {A} (l : list A) (x : A) : (l ++ [x])%list <> l.
Proof.
  intro H. apply (f_equal (@List.length A)) in H.
  rewrite List.length_app in H. simpl in H. lia.
Qed.

Lemma record_added_iff card products st :
  record_added site urljoin card products st
  <-> exists f, card_fields urljoin (base_url st) card = Ok f.
Proof.
  unfold record_added. rewrite parse_card_step_eq.
  destruct (card_fields urljoin (base_url st) card) as [f|e].
  - split; eauto.
  - split.
    + intros (p & st' & H).
      destruct (catches [AttributeError; ValueError] e); [ | discriminate ].
      inversion H as [[H1 H2]]. symmetry in H1.
      now apply app_singleton_neq in H1.
    + intros [f H]. discriminate.
Qed.

(** A card whose price has no numeric body is passed over by its turn of
    the loop, which leaves the scraper as it was. *)
Lemma unpriced_card_skipped card products st t :
  text_of (select_one card ".product-price") = Ok t ->
  PyStr.remove_char "$" (PyStr.strip t) = "" ->
  parse_card_step site urljoin card products st = (Ok products, st).
Proof.
  intros Ht Hbody. rewrite parse_card_step_eq. unfold card_fields.
  destruct (text_of (select_one card ".product-name")) as [n|e] eqn:En;
    simpl.
  - rewrite Ht. simpl. rewrite Hbody. reflexivity.
  - unfold text_of in En.
    destruct (select_one card ".product-name"); [ discriminate | ].
    inversion En. reflexivity.
Qed.

(** A card whose [try] block raises an exception of the [except] clause
    is passed over in the same way. *)
Lemma caught_card_skipped card products st e :
  card_fields urljoin (base_url st) card = Raise e ->
  catches [AttributeError; ValueError] e = true ->
  parse_card_step site urljoin card products st = (Ok products, st).
Proof.
  intros Hf He. now rewrite parse_card_step_eq, Hf, He.
Qed.

(** The loop over two runs of cards is the loop over the first, then over
    the second. *)
Lemma parse_cards_app pre post products st :
  parse_cards site urljoin (pre ++ post)%list products st
  = match parse_cards site urljoin pre products st with
    | (Ok products', st') => parse_cards site urljoin post products' st'
    | (Raise e, st') => (Raise e, st')
    end.
Proof.
  revert products st.
  induction pre as [|card pre IH]; intros products st; simpl.
  - reflexivity.
  - unfold bind.
    destruct (parse_card_step site urljoin card products st) as [[ps|e] st1];
      [ apply IH | reflexivity ].
Qed.

(** ** Claims about one card and its detail page *)

(** C1 (as the code has it): a record is appended for a card exactly when
    all five listing fields (name, price, description, rating and link)
    parse; the enrichment never decides it, and the appended record takes
    its category and stock flag from the enrichment, with [None] and [True]
    for what the enrichment does not give. *)
Theorem C1_record_added_iff_all_fields_parse card products st :
  (record_added site urljoin card products st
   <-> name_parses card /\ price_parses card /\ description_parses card
       /\ rating_parses card /\ link_parses urljoin (base_url st) card)
  /\ (forall p st',
        parse_card_step site urljoin card products st
        = (Ok (products ++ [p])%list, st') ->
        let d := details_of_response
                   (site (map req_url (requests st)) (url p)) in
        category p = d_category d
        /\ in_stock p = match d_in_stock d with
                        | Some b => b
                        | None => true
                        end).
Proof.
  split.
  - rewrite record_added_iff. apply card_fields_ok_iff.
  - intros p st'. rewrite parse_card_step_eq.
    destruct (card_fields urljoin (base_url st) card) as [f|e].
    + intro H. inversion H as [[H1 H2]].
      apply app_inv_head in H1. inversion H1 as [Hp].
      destruct f as [[[[n pr] de] ra] u]. simpl. split; reflexivity.
    + destruct (catches [AttributeError; ValueError] e); intro H;
        [ | discriminate ].
      inversion H as [[H1 H2]]. symmetry in H1.
      now apply app_singleton_neq in H1.
Qed.

(** C2 (as the code has it): [_get_product_details] never raises; both
    fields are returned when both selectors match, and the enrichment is
    empty (both fields omitted) as soon as one of them does not. *)
Theorem C2_details_all_or_nothing url st :
  (exists d,
     _get_product_details site url st = (Ok d, logged site Detail url st))
  /\ (forall doc,
        site (map req_url (requests st)) url = Some doc ->
        fst (_get_product_details site url st)
        = Ok match select_one doc ".breadcrumb a:last-child",
                   select_one doc ".stock-status" with
             | Some crumb, Some status =>
                 {| d_category := Some (PyStr.strip (tag_text crumb));
                    d_in_stock :=
                      Some (PyStr.contains "in stock"
                              (PyStr.lower (PyStr.strip (tag_text status))))
                 |}
             | _, _ => no_details
             end).
Proof.
  rewrite get_product_details_eq. split; [ eauto | ].
  intros doc Hdoc. rewrite Hdoc. simpl.
  unfold read_details, text_of.
  destruct (select_one doc ".breadcrumb a:last-child"); simpl;
    [ destruct (select_one doc ".stock-status"); simpl | ];
    reflexivity.
Qed.

(** C6: a card whose listing fields parse yields a record whatever the
    detail page does; when the detail fetch fails, the enrichment is empty,
    or the detail page has no stock-status element, the record has no
    category and is in stock. *)
Theorem C6_failed_enrichment_defaults card products st f :
  card_fields urljoin (base_url st) card = Ok f ->
  let resp := site (map req_url (requests st)) (snd f) in
  resp = None
  \/ details_of_response resp = no_details
  \/ (exists doc, resp = Some doc /\ select_one doc ".stock-status" = None) ->
  exists p,
    parse_card_step site urljoin card products st
    = (Ok (products ++ [p])%list, logged site Detail (snd f) st)
    /\ category p = None /\ in_stock p = true.
Proof.
  intros Hf resp Hresp. rewrite parse_card_step_eq, Hf.
  fold resp.
  assert (Hd : details_of_response resp = no_details).
  { destruct Hresp as [H | [H | (doc & H & Hs)]].
    - rewrite H. reflexivity.
    - exact H.
    - rewrite H. simpl. unfold read_details, text_of. rewrite Hs.
      destruct (select_one doc ".breadcrumb a:last-child"); reflexivity. }
  rewrite Hd. eexists. split; [ reflexivity | ].
  destruct f as [[[[n pr] de] ra] u]. simpl. split; reflexivity.
Qed.

(** C8: the enrichment depends on the content of the detail page only, so
    the same content gives the same category and stock flag whatever the
    site, the URL and the scraper; and merging an enrichment into a record
    a second time changes nothing. *)
Theorem C8_enrichment_deterministic_merge_idempotent :
  (forall (site' : Site) url url' st st',
     site (map req_url (requests st)) url
     = site' (map req_url (requests st')) url' ->
     fst (_get_product_details site url st)
     = fst (_get_product_details site' url' st'))
  /\ (forall p d, merge_details (merge_details p d) d = merge_details p d)
  /\ (forall f d, merge_details (make_product f d) d = make_product f d).
Proof.
  split; [ | split ].
  - intros site' url url' st st' H.
    unfold _get_product_details, bind, fetch_page. rewrite H.
    destruct (site' (map req_url (requests st')) url') as [doc|];
      [ | reflexivity ].
    unfold try_except, lift.
    destruct (read_details doc) as [d|e]; [ reflexivity | ].
    destruct (catches [AttributeError] e); reflexivity.
  - intros p d. reflexivity.
  - intros [[[[n pr] de] ra] u] d. reflexivity.
Qed.

(** ** The loops *)

Lemma scrape_loop_body category max_pages page st :
  scrape_loop site urljoin category max_pages page st
  = if Z_le_gt_dec page max_pages
    then match scrape_page site urljoin category page st with
         | (Ok Next, st') =>
             scrape_loop site urljoin category max_pages (page + 1) st'
         | (Ok Break, st') => (Ok tt, st')
         | (Raise e, st') => (Raise e, st')
         end
    else (Ok tt, st).
Proof.
  simp scrape_loop.
  destruct (Z_le_gt_dec page max_pages); simpl; [ | reflexivity ].
  destruct (scrape_page site urljoin category page st) as [[[|]|e] st'];
    reflexivity.
Qed.

Lemma only_details_refl st : only_details st st.
Proof.
  repeat split. exists []. split; [ now rewrite app_nil_r | constructor ].
Qed.

Lemma only_details_trans st1 st2 st3 :
  only_details st1 st2 -> only_details st2 st3 -> only_details st1 st3.
Proof.
  intros (Hb & Hd & l & Hl & Fl) (Hb' & Hd' & l' & Hl' & Fl').
  repeat split; try congruence.
  exists (l ++ l')%list. split.
  - rewrite Hl', Hl. now rewrite app_assoc.
  - apply Forall_app. now split.
Qed.

Lemma only_details_logged url st :
  only_details st (logged site Detail url st).
Proof.
  repeat split. eexists. split; [ reflexivity | ].
  constructor; [ reflexivity | constructor ].
Qed.

Lemma parse_card_step_frame card products st :
  only_details st (snd (parse_card_step site urljoin card products st)).
Proof.
  rewrite parse_card_step_eq.
  destruct (card_fields urljoin (base_url st) card) as [f|e].
  - apply only_details_logged.
  - destruct (catches [AttributeError; ValueError] e);
      apply only_details_refl.
Qed.

(** Parsing a listing page issues detail requests and touches nothing
    else of the scraper. *)
Lemma parse_cards_frame cards :
  forall products st,
    only_details st (snd (parse_cards site urljoin cards products st)).
Proof.
  induction cards as [|card cards IH]; intros products st; simpl.
  - apply only_details_refl.
  - unfold bind.
    pose proof (parse_card_step_frame card products st) as Hstep.
    destruct (parse_card_step site urljoin card products st)
      as [[ps|e] st1]; simpl in Hstep.
    + eapply only_details_trans; [ exact Hstep | apply IH ].
    + exact Hstep.
Qed.

(** One turn of the pagination loop: one listing request, then detail
    requests only; the result list grows at its end; a failed fetch or a
    page without cards ends the loop with no further request. *)
Lemma scrape_page_spec category page st :
  let u := listing_url (base_url st) category page in
  let resp := site (map req_url (requests st)) u in
  let res := scrape_page site urljoin category page st in
  exists details new_data,
    base_url (snd res) = base_url st
    /\ scraped_data (snd res) = (scraped_data st ++ new_data)%list
    /\ requests (snd res)
       = (requests st ++ mkRequest Listing u resp :: details)%list
    /\ Forall (fun q => req_by q = Detail) details
    /\ (ends_run (mkRequest Listing u resp) ->
        details = [] /\ fst res = Ok Break).
Proof.
  intros u. cbv zeta.
  assert (Hlog : requests (logged site Listing u st)
                 = (requests st
                    ++ [mkRequest Listing u
                          (site (map req_url (requests st)) u)])%list)
    by reflexivity.
  unfold scrape_page, bind, ret. rewrite fetch_page_eq. fold u.
  destruct (site (map req_url (requests st)) u) as [doc|] eqn:Hresp.
  - unfold _parse_product_listing.
    destruct (select doc ".product-card") as [|c cs] eqn:Hcards.
    + simpl. exists [], []. rewrite app_nil_r. repeat split; auto.
    + pose proof (parse_cards_frame (c :: cs) [] (logged site Listing u st))
        as Hframe.
      remember (parse_cards site urljoin (c :: cs) []
                  (logged site Listing u st)) as res eqn:Hres.
      destruct Hframe as (Hb & Hd & details & Hl & Fl).
      assert (Hgo : ~ ends_run (mkRequest Listing u (Some doc))).
      { intros [_ [H | (doc' & H & Hnone)]]; simpl in H; [ discriminate | ].
        inversion H; subst doc'. congruence. }
      rewrite Hlog, <- app_assoc in Hl. simpl in Hl, Hb, Hd.
      clear Hres. destruct res as [[[|p ps]|e] st2]; simpl in Hb, Hd, Hl; simpl.
      * exists details, []. rewrite app_nil_r.
        split; [ exact Hb | split; [ exact Hd | split; [ exact Hl | ] ] ].
        split; [ exact Fl | intro H; now apply Hgo in H ].
      * exists details, (p :: ps).
        split; [ exact Hb | split; [ now rewrite Hd | split; [ exact Hl | ] ] ].
        split; [ exact Fl | intro H; now apply Hgo in H ].
      * exists details, []. rewrite app_nil_r.
        split; [ exact Hb | split; [ exact Hd | split; [ exact Hl | ] ] ].
        split; [ exact Fl | intro H; now apply Hgo in H ].
  - simpl. exists [], []. rewrite app_nil_r. repeat split; auto.
Qed.

Lemma listing_requests_details l :
  Forall (fun q => req_by q = Detail) l -> listing_requests l = [].
Proof.
  induction 1 as [|q l Hq _ IH]; [ reflexivity | ].
  unfold listing_requests in *. simpl. now rewrite Hq.
Qed.

(** A listing request found after a run of detail requests lies in what
    follows that run. *)
Lemma split_after_details details :
  forall rest pre post r,
    Forall (fun q => req_by q = Detail) details ->
    req_by r = Listing ->
    (pre ++ r :: post)%list = (details ++ rest)%list ->
    exists pre', pre = (details ++ pre')%list
                 /\ rest = (pre' ++ r :: post)%list.
Proof.
  induction details as [|d details IH]; intros rest pre post r Fd Hr Heq.
  - exists pre. now split.
  - inversion Fd as [|? ? Hd Fd']; subst.
    destruct pre as [|q pre]; simpl in Heq; inversion Heq; subst.
    + congruence.
    + destruct (IH rest pre post r Fd' Hr) as (pre' & -> & ->); [ assumption | ].
      now exists pre'.
Qed.

Lemma stops_at_failure_nil : stops_at_failure [].
Proof.
  intros pre r post H. now destruct pre.
Qed.

(** The pagination loop from [page] on: the result list and the request
    log grow at their ends; the listing requests are those of pages
    [page], [page + 1], ... in this order, no more of them than pages are
    left; nothing follows a listing request that ends the run. *)
Lemma scrape_loop_spec category max_pages :
  forall k page st,
    Z.to_nat (max_pages + 1 - page) = k ->
    let res := scrape_loop site urljoin category max_pages page st in
    exists new_reqs new_data n,
      base_url (snd res) = base_url st
      /\ scraped_data (snd res) = (scraped_data st ++ new_data)%list
      /\ requests (snd res) = (requests st ++ new_reqs)%list
      /\ map req_url (listing_requests new_reqs)
         = map (listing_url (base_url st) category) (pages_from page n)
      /\ (n <= k)%nat
      /\ stops_at_failure new_reqs.
Proof.
  induction k as [|k IH]; intros page st Hk; cbv zeta;
    rewrite scrape_loop_body;
    destruct (Z_le_gt_dec page max_pages) as [Hle|Hgt];
    try (exfalso; lia);
    try (exists [], [], O; rewrite !app_nil_r;
         repeat split; auto using stops_at_failure_nil; lia).
  pose proof (scrape_page_spec category page st) as Hpage.
  cbv zeta in Hpage.
  destruct Hpage as (details & data & Hb & Hd & Hl & Fd & Hend).
  set (u := listing_url (base_url st) category page) in *.
  set (first := mkRequest Listing u (site (map req_url (requests st)) u))
    in *.
  assert (Hshort : stops_at_failure (first :: details)).
  { intros pre r post Heq Hr.
    destruct pre as [|q pre]; simpl in Heq; injection Heq as Hq Hrest.
    - rewrite <- Hq in Hr. rewrite <- Hrest. now destruct (Hend Hr).
    - destruct (split_after_details details [] pre post r Fd (proj1 Hr))
        as (pre' & _ & Hnil); [ now rewrite app_nil_r | ].
      now destruct pre'. }
  assert (Hone : map req_url (listing_requests (first :: details))
                 = map (listing_url (base_url st) category)
                       (pages_from page 1)).
  { unfold listing_requests. simpl.
    fold (listing_requests details).
    now rewrite (listing_requests_details details Fd). }
  destruct (scrape_page site urljoin category page st)
    as [[[|]|e] st1]; simpl in Hb, Hd, Hl, Hend.
  - destruct (IH (page + 1) st1 ltac:(lia))
      as (reqs2 & data2 & n & Hb2 & Hd2 & Hl2 & Hu2 & Hn & Hs2).
    exists (first :: details ++ reqs2)%list, (data ++ data2)%list, (S n).
    split; [ congruence | ].
    split; [ rewrite Hd2, Hd; now rewrite app_assoc | ].
    split; [ rewrite Hl2, Hl; now rewrite <- app_assoc | ].
    split; [ | split; [ lia | ] ].
    + change (first :: details ++ reqs2)%list
        with ((first :: details) ++ reqs2)%list.
      unfold listing_requests in *. rewrite filter_app, map_app.
      rewrite Hone, Hu2, Hb. reflexivity.
    + intros pre r post Heq Hr.
      destruct pre as [|q pre]; simpl in Heq; injection Heq as Hq Hrest.
      * rewrite <- Hq in Hr. destruct (Hend Hr) as [_ Habs]. discriminate.
      * destruct (split_after_details details reqs2 pre post r Fd (proj1 Hr))
          as (pre' & _ & Hrest'); [ now symmetry | ].
        exact (Hs2 pre' r post Hrest' Hr).
  - exists (first :: details), data, 1%nat.
    split; [ exact Hb | split; [ exact Hd | split; [ exact Hl | ] ] ].
    split; [ exact Hone | split; [ lia | exact Hshort ] ].
  - exists (first :: details), data, 1%nat.
    split; [ exact Hb | split; [ exact Hd | split; [ exact Hl | ] ] ].
    split; [ exact Hone | split; [ lia | exact Hshort ] ].
Qed.

(** *** The result list does not steer the run *)

Lemma parse_card_step_data card products st l :
  parse_card_step site urljoin card products (with_scraped_data st l)
  = (fst (parse_card_step site urljoin card products st),
     with_scraped_data
       (snd (parse_card_step site urljoin card products st)) l).
Proof.
  rewrite !parse_card_step_eq. simpl.
  destruct (card_fields urljoin (base_url st) card) as [f|e];
    [ reflexivity | ].
  destruct e; reflexivity.
Qed.

Lemma parse_cards_data cards :
  forall products st l,
    parse_cards site urljoin cards products (with_scraped_data st l)
    = (fst (parse_cards site urljoin cards products st),
       with_scraped_data
         (snd (parse_cards site urljoin cards products st)) l).
Proof.
  induction cards as [|card cards IH]; intros products st l; simpl.
  - reflexivity.
  - unfold bind. rewrite parse_card_step_data.
    destruct (parse_card_step site urljoin card products st)
      as [[ps|e] st1]; simpl; [ apply IH | reflexivity ].
Qed.

Lemma scrape_page_data category page st :
  exists outcome st' new_data,
    forall l,
      scrape_page site urljoin category page (with_scraped_data st l)
      = (outcome, with_scraped_data st' (l ++ new_data)%list).
Proof.
  unfold scrape_page, bind, ret, _parse_product_listing.
  set (u := listing_url (base_url st) category page).
  destruct (site (map req_url (requests st)) u) as [doc|] eqn:Hresp.
  - destruct (parse_cards site urljoin (select doc ".product-card") []
                (logged site Listing u st)) as [[[|p ps]|e] st2] eqn:Hparse.
    + exists (Ok Break), st2, []. intro l.
      rewrite fetch_page_eq. simpl. fold u. rewrite Hresp.
      change (logged site Listing u (with_scraped_data st l))
        with (with_scraped_data (logged site Listing u st) l).
      rewrite parse_cards_data, Hparse. simpl. now rewrite app_nil_r.
    + exists (Ok Next), st2, (p :: ps). intro l.
      rewrite fetch_page_eq. simpl. fold u. rewrite Hresp.
      change (logged site Listing u (with_scraped_data st l))
        with (with_scraped_data (logged site Listing u st) l).
      rewrite parse_cards_data, Hparse. reflexivity.
    + exists (Raise e), st2, []. intro l.
      rewrite fetch_page_eq. simpl. fold u. rewrite Hresp.
      change (logged site Listing u (with_scraped_data st l))
        with (with_scraped_data (logged site Listing u st) l).
      rewrite parse_cards_data, Hparse. simpl. now rewrite app_nil_r.
  - exists (Ok Break), (logged site Listing u st), []. intro l.
    rewrite fetch_page_eq. simpl. fold u. rewrite Hresp.
    rewrite app_nil_r. reflexivity.
Qed.

(** A run started with another result list makes the same requests, ends
    the same way and adds the same records. *)
Lemma scrape_loop_data category max_pages :
  forall k page st,
    Z.to_nat (max_pages + 1 - page) = k ->
    exists outcome st' new_data,
      forall l,
        scrape_loop site urljoin category max_pages page
          (with_scraped_data st l)
        = (outcome, with_scraped_data st' (l ++ new_data)%list).
Proof.
  induction k as [|k IH]; intros page st Hk;
    destruct (Z_le_gt_dec page max_pages) as [Hle|Hgt] eqn:Hdec;
    try (exfalso; lia);
    try (exists (Ok tt), st, []; intro l;
         rewrite scrape_loop_body, Hdec; now rewrite app_nil_r).
  destruct (scrape_page_data category page st)
    as (outcome & st1 & data & Hpage).
  destruct outcome as [[|]|e].
  - destruct (IH (page + 1) st1 ltac:(lia))
      as (outcome2 & st2 & data2 & Hrest).
    exists outcome2, st2, (data ++ data2)%list. intro l.
    rewrite scrape_loop_body, Hdec, Hpage, Hrest. now rewrite app_assoc.
  - exists (Ok tt), st1, data. intro l.
    now rewrite scrape_loop_body, Hdec, Hpage.
  - exists (Raise e), st1, data. intro l.
    now rewrite scrape_loop_body, Hdec, Hpage.
Qed.

Lemma with_own_scraped_data st : with_scraped_data st (scraped_data st) = st.
Proof. now destruct st. Qed.

(** ** Claims about the pagination driver *)

(** C5 (as the code has it): the result list is created empty by
    [__init__], not by [scrape_products]; from then on it only grows at its
    end: parsing the cards of a page leaves it as it is, one turn of the
    pagination loop and a whole call of [scrape_products] keep what it held
    and add records after it, namely the records the same call collects
    when started from an empty list. *)
Theorem C5_result_list_append_only :
  (forall base, scraped_data (init base) = [])
  /\ (forall cards products st,
        scraped_data (snd (parse_cards site urljoin cards products st))
        = scraped_data st)
  /\ (forall category page st,
        exists new_data,
          scraped_data (snd (scrape_page site urljoin category page st))
          = (scraped_data st ++ new_data)%list)
  /\ (forall category max_pages st,
        scraped_data
          (snd (scrape_products site urljoin category max_pages st))
        = (scraped_data st
           ++ scraped_data
                (snd (scrape_products site urljoin category max_pages
                        (with_scraped_data st []))))%list).
Proof.
  split; [ reflexivity | split; [ | split ] ].
  - intros cards products st.
    now destruct (parse_cards_frame cards products st) as (_ & Hd & _).
  - intros category page st.
    pose proof (scrape_page_spec category page st) as Hpage.
    cbv zeta in Hpage.
    destruct Hpage as (_ & data & _ & Hd & _). now exists data.
  - intros category max_pages st. unfold scrape_products.
    destruct (scrape_loop_data category max_pages _ 1 st eq_refl)
      as (outcome & st' & data & Hrun).
    rewrite <- (with_own_scraped_data st) at 1.
    rewrite !Hrun. reflexivity.
Qed.

Lemma digits_value_acc d :
  forall acc,
    digits_value (NilEmpty.string_of_uint d) (Z.pos acc)
    = Some (Z.pos (Pos.of_uint_acc d acc)).
Proof.
  induction d as [|d IH|d IH|d IH|d IH|d IH|d IH|d IH|d IH|d IH|d IH];
    intro acc; cbn [NilEmpty.string_of_uint digits_value Pos.of_uint_acc];
    [ reflexivity | .. ];
    rewrite <- IH;
    match goal with
    | |- context [Z.of_N (N_of_ascii ?c) - 48] =>
        let v := eval vm_compute in (Z.of_N (N_of_ascii c) - 48) in
        change (Z.of_N (N_of_ascii c) - 48) with v
    end;
    match goal with
    | |- context [andb ?a ?b] => change (andb a b) with true
    end;
    cbv iota; f_equal; lia.
Qed.

Lemma digits_value_uint d :
  digits_value (NilEmpty.string_of_uint d) 0 = Some (Z.of_N (Pos.of_uint d)).
Proof.
  induction d as [|d IH|d IH|d IH|d IH|d IH|d IH|d IH|d IH|d IH|d IH];
    cbn [NilEmpty.string_of_uint digits_value Pos.of_uint];
    [ reflexivity | exact IH | .. ];
    apply (digits_value_acc d).
Qed.

(** The decimal digits of a positive number do not start with a zero. *)
Lemma to_uint_no_leading_zero p d : Pos.to_uint p <> Decimal.D0 d.
Proof.
  intro H.
  pose proof (Unsigned.to_of (Pos.to_uint p)) as Hnorm.
  rewrite Unsigned.of_to in Hnorm. simpl in Hnorm.
  rewrite H in Hnorm at 1. unfold Decimal.unorm in Hnorm.
  destruct (Decimal.nzhead (Pos.to_uint p)) eqn:Hhead;
    try (symmetry in Hnorm; rewrite <- Hhead in Hnorm;
         now apply DecimalFacts.nzhead_nonzero in Hnorm).
  injection Hnorm as ->.
  now apply (Unsigned.to_uint_nonzero p).
Qed.

Lemma unsigned_decimal_pos p :
  unsigned_decimal (Z.pos p) (NilZero.string_of_uint (Pos.to_uint p))
  /\ forall r, NilZero.string_of_uint (Pos.to_uint p) <> String "-" r.
Proof.
  pose proof (digits_value_uint (Pos.to_uint p)) as Hval.
  rewrite Unsigned.of_to in Hval. simpl in Hval.
  unfold unsigned_decimal.
  destruct (Pos.to_uint p) as [|d|d|d|d|d|d|d|d|d|d] eqn:Hp;
    try (now apply Unsigned.to_uint_nonnil in Hp);
    try (now apply to_uint_no_leading_zero in Hp);
    (split; [ split; [ exact Hval | exact I ] | discriminate ]).
Qed.

(** [str(n)] is the decimal notation of [n]. *)
Lemma of_int_decimal n : is_decimal_of n (PyStr.of_int n).
Proof.
  unfold PyStr.of_int. destruct n as [|p|p]; simpl.
  - repeat split; lia.
  - destruct (unsigned_decimal_pos p) as (Hdec & Hminus).
    unfold is_decimal_of.
    destruct (NilZero.string_of_uint (Pos.to_uint p)) as [|c r] eqn:Hs.
    + split; [ lia | exact Hdec ].
    + destruct (Ascii.eqb_spec c "-") as [-> | Hc].
      * now destruct (Hminus r).
      * destruct c as [[] [] [] [] [] [] [] []];
          try (split; [ lia | exact Hdec ]).
        now destruct Hc.
  - split; [ lia | ]. apply unsigned_decimal_pos.
Qed.

(** C9: the listing request of page [page] goes to
    [{base}/products?page={page}] when the category is ["all"] and to
    [{base}/products/{category}?page={page}] otherwise, where [{page}] is
    the page number in decimal notation; it is the first request of the
    turn, and only detail requests follow it. *)
Theorem C9_listing_url_forms category page st :
  (exists resp details,
     requests (snd (scrape_page site urljoin category page st))
     = (requests st
        ++ mkRequest Listing
             (if String.eqb category "all"
              then base_url st ++ "/products?page=" ++ PyStr.of_int page
              else base_url st ++ "/products/" ++ category ++ "?page="
                   ++ PyStr.of_int page)
             resp
           :: details)%list
     /\ Forall (fun q => req_by q = Detail) details)
  /\ is_decimal_of page (PyStr.of_int page).
Proof.
  split; [ | apply of_int_decimal ].
  pose proof (scrape_page_spec category page st) as Hpage.
  cbv zeta in Hpage.
  destruct Hpage as (details & _ & _ & _ & Hl & Fd & _).
  unfold listing_url in Hl.
  destruct (String.eqb category "all"); simpl in Hl; eauto.
Qed.

(** C10: with a page ceiling of zero or less, [scrape_products] returns
    at once: no request, no record, the scraper is as it was. *)
Theorem C10_no_pages_no_fetch category max_pages st :
  max_pages <= 0 ->
  scrape_products site urljoin category max_pages st = (Ok tt, st).
Proof.
  intro H. unfold scrape_products. rewrite scrape_loop_body.
  destruct (Z_le_gt_dec 1 max_pages); [ lia | reflexivity ].
Qed.

End Properties.

(** * Further properties of the pipeline *)

Section Further.

Variable site : Site.
Variable urljoin : string -> string -> Exc string.

(** ** The cards of one page *)

Lemma url_make_product f d : url (make_product f d) = snd f.
Proof. now destruct f as [[[[n pr] de] ra] u]. Qed.

Lemma fields_of_make_product f d : fields_of (make_product f d) = f.
Proof. now destruct f as [[[[n pr] de] ra] u]. Qed.

Lemma parse_cards_base_url cards products st :
  base_url (snd (parse_cards site urljoin cards products st)) = base_url st.
Proof.
  now destruct (parse_cards_frame site urljoin cards products st) as (H & _).
Qed.

(** What a page that parses to the end returns and requests: the records
    it was given, then one record per detail request, each enriched from
    the answer to its own request. *)
Lemma parse_cards_ok cards :
  forall products st ps st',
    parse_cards site urljoin cards products st = (Ok ps, st') ->
    exists new details,
      ps = (products ++ new)%list
      /\ requests st' = (requests st ++ details)%list
      /\ Forall2 enriched_by new details.
Proof.
  induction cards as [|card cards IH]; intros products st ps st' H;
    simpl in H.
  - inversion H; subst. exists [], []. rewrite !app_nil_r.
    repeat split; constructor.
  - unfold bind in H. rewrite parse_card_step_eq in H.
    destruct (card_fields urljoin (base_url st) card) as [f|e].
    + destruct (IH _ _ _ _ H) as (new & details & -> & Hl & Hen).
      eexists (_ :: new), (_ :: details).
      split; [ now rewrite <- app_assoc | ].
      split; [ rewrite Hl; simpl; now rewrite <- app_assoc | ].
      constructor; [ | exact Hen ].
      unfold enriched_by. simpl. rewrite url_make_product.
      destruct f as [[[[n pr] de] ra] u]. simpl. repeat split.
    + destruct (catches [AttributeError; ValueError] e);
        [ exact (IH _ _ _ _ H) | discriminate ].
Qed.

(** On a page whose cards all parse or fail with an exception of the
    [except] clause, the records added are those of the cards that parse,
    in the order of the cards. *)
Lemma parse_cards_valid cards :
  forall products st,
    Forall (well_behaved urljoin (base_url st)) cards ->
    exists new st',
      parse_cards site urljoin cards products st
      = (Ok (products ++ new)%list, st')
      /\ map fields_of new = valid_fields urljoin (base_url st) cards.
Proof.
  induction cards as [|card cards IH]; intros products st Hall; simpl.
  - exists [], st. now rewrite app_nil_r.
  - inversion Hall as [|? ? Hcard Hrest]; subst.
    unfold bind. rewrite parse_card_step_eq.
    destruct (card_fields urljoin (base_url st) card) as [f|e] eqn:Hf.
    + destruct (IH (products ++ [make_product f
                      (details_of_response
                         (site (map req_url (requests st)) (snd f)))])%list
                   (logged site Detail (snd f) st) Hrest)
        as (new & st' & Hrun & Hfields).
      eexists (_ :: new), st'. rewrite Hrun.
      split; [ now rewrite <- app_assoc | ].
      simpl. rewrite fields_of_make_product. simpl in Hfields.
      now rewrite Hfields.
    + rewrite (Hcard e Hf). exact (IH products st Hrest).
Qed.

Lemma valid_fields_app base pre post :
  valid_fields urljoin base (pre ++ post)
  = (valid_fields urljoin base pre ++ valid_fields urljoin base post)%list.
Proof.
  induction pre as [|card pre IH]; simpl; [ reflexivity | ].
  destruct (card_fields urljoin base card); [ simpl | ]; now rewrite IH.
Qed.

(** X1: on a page whose cards all parse or fail with an exception of the
    [except] clause, the page is parsed to the end and the records added
    are those of the cards that parse, one each, in document order. *)
Theorem X1_valid_cards_in_order cards :
  forall products st,
    Forall (well_behaved urljoin (base_url st)) cards ->
    exists new st',
      parse_cards site urljoin cards products st
      = (Ok (products ++ new)%list, st')
      /\ map fields_of new = valid_fields urljoin (base_url st) cards.
Proof.
  exact (parse_cards_valid cards).
Qed.

(** X2: a card that fails with an exception outside the [except] clause
    ends the parsing of its page with that exception: the records of the
    cards before it are not returned, and the cards after it are not looked
    at (the scraper is left as it was before that card). *)
Theorem X2_uncaught_card_aborts pre card post products st ps st1 e :
  parse_cards site urljoin pre products st = (Ok ps, st1) ->
  card_fields urljoin (base_url st) card = Raise e ->
  catches [AttributeError; ValueError] e = false ->
  parse_cards site urljoin (pre ++ card :: post)%list products st
  = (Raise e, st1).
Proof.
  intros Hpre Hcard He.
  rewrite parse_cards_app, Hpre. simpl. unfold bind.
  rewrite parse_card_step_eq.
  replace (base_url st1) with (base_url st).
  - now rewrite Hcard, He.
  - pose proof (parse_cards_base_url pre products st) as Hb.
    rewrite Hpre in Hb. now symmetry.
Qed.

(** The loop over the cards lets no exception of its [except] clause
    through. *)
Lemma parse_cards_raise cards :
  forall products st e st',
    parse_cards site urljoin cards products st = (Raise e, st') ->
    catches [AttributeError; ValueError] e = false.
Proof.
  induction cards as [|card cards IH]; intros products st e st' H;
    simpl in H.
  - discriminate.
  - unfold bind in H. rewrite parse_card_step_eq in H.
    destruct (card_fields urljoin (base_url st) card) as [f|e0].
    + exact (IH _ _ _ _ H).
    + destruct (catches [AttributeError; ValueError] e0) eqn:He0.
      * exact (IH _ _ _ _ H).
      * inversion H; subst. exact He0.
Qed.

(** A page of malformed cards yields nothing and requests nothing. *)
Lemma parse_cards_all_malformed cards :
  forall products st,
    Forall (malformed urljoin (base_url st)) cards ->
    parse_cards site urljoin cards products st = (Ok products, st).
Proof.
  induction cards as [|card cards IH]; intros products st Hall; simpl.
  - reflexivity.
  - inversion Hall as [|? ? (e & Hf & He) Hrest]; subst.
    unfold bind.
    rewrite (caught_card_skipped site urljoin card products st e Hf He).
    exact (IH products st Hrest).
Qed.

(** C7: the price text ["$19.99"] is converted to the number 19.99, which
    is the price of the record; a card whose price text has nothing left
    once the dollar sign is removed is passed over by its own turn, which
    adds no record and makes no request, and the page is parsed as if that
    card were not there; on a page whose other cards parse or fail with a
    caught exception, every other card that parses has its record in the
    result, in the order of the cards, each with its own detail
    request. *)
Theorem C7_price_conversion_and_skip :
  (PyFloat.of_str (PyStr.remove_char "$" (PyStr.strip "$19.99"))
   = Ok (FFinite (1999 # 100))
   /\ forall card st p st',
        text_of (select_one card ".product-price") = Ok "$19.99" ->
        parse_card site urljoin card st = (Ok p, st') ->
        price p = FFinite (1999 # 100))
  /\ (forall pre bad post products st t,
        text_of (select_one bad ".product-price") = Ok t ->
        PyStr.remove_char "$" (PyStr.strip t) = "" ->
        parse_cards site urljoin (pre ++ bad :: post)%list products st
        = parse_cards site urljoin (pre ++ post)%list products st
        /\ (forall ps st1,
              parse_card_step site urljoin bad ps st1 = (Ok ps, st1))
        /\ (Forall (well_behaved urljoin (base_url st)) (pre ++ post) ->
            exists new details st',
              parse_cards site urljoin (pre ++ bad :: post)%list products st
              = (Ok (products ++ new)%list, st')
              /\ map fields_of new
                 = (valid_fields urljoin (base_url st) pre
                    ++ valid_fields urljoin (base_url st) post)%list
              /\ requests st' = (requests st ++ details)%list
              /\ Forall2 enriched_by new details)).
Proof.
  split; [ split; [ reflexivity | ] | ].
  - intros card st p st' Hprice. rewrite parse_card_eq.
    unfold card_fields. rewrite Hprice.
    destruct (text_of (select_one card ".product-name")) as [n|]; simpl;
      [ | discriminate ].
    destruct (text_of (select_one card ".product-description")) as [d|];
      simpl; [ | discriminate ].
    destruct (getitem (select_one card ".product-rating") "data-rating")
      as [r|]; simpl; [ | discriminate ].
    destruct (PyFloat.of_str r) as [y|]; simpl; [ | discriminate ].
    destruct (getitem (select_one card "a") "href") as [h|]; simpl;
      [ | discriminate ].
    destruct (urljoin (base_url st) h) as [u|]; simpl; [ | discriminate ].
    intro H. inversion H. reflexivity.
  - intros pre bad post products st t Ht Hbody.
    assert (Hsame :
              parse_cards site urljoin (pre ++ bad :: post)%list products st
              = parse_cards site urljoin (pre ++ post)%list products st).
    { rewrite !parse_cards_app.
      destruct (parse_cards site urljoin pre products st) as [[ps|e] st1];
        [ | reflexivity ].
      simpl. unfold bind.
      rewrite (unpriced_card_skipped site urljoin bad ps st1 t Ht Hbody).
      reflexivity. }
    split; [ exact Hsame | split ].
    + intros ps st1.
      exact (unpriced_card_skipped site urljoin bad ps st1 t Ht Hbody).
    + intro Hall. rewrite Hsame.
      destruct (parse_cards_valid (pre ++ post)%list products st Hall)
        as (new & st' & Hrun & Hfields).
      destruct (parse_cards_ok _ _ _ _ _ Hrun)
        as (new' & details & Hnew & Hl & Hen).
      apply app_inv_head in Hnew. subst new'.
      exists new, details, st'.
      rewrite <- valid_fields_app. now repeat split.
Qed.

(** ** One page and the whole run *)

(** X4: when a listing page is parsed to the end, one detail request was
    made per record returned, in the order of the records, to the URL of
    that record, and the category and stock flag of the record are those
    read from the answer to that request. *)
Theorem X4_one_detail_request_per_record soup st ps st' :
  _parse_product_listing site urljoin soup st = (Ok ps, st') ->
  exists details,
    requests st' = (requests st ++ details)%list
    /\ Forall2 enriched_by ps details.
Proof.
  unfold _parse_product_listing. intro H.
  destruct (parse_cards_ok _ _ _ _ _ H) as (new & details & -> & Hl & Hen).
  now exists details.
Qed.

Lemma scrape_page_raise category page st e st1 :
  scrape_page site urljoin category page st = (Raise e, st1) ->
  catches [AttributeError; ValueError] e = false.
Proof.
  unfold scrape_page, bind, ret, _parse_product_listing.
  rewrite fetch_page_eq.
  destruct (site _ _) as [doc|]; [ | discriminate ].
  destruct (parse_cards site urljoin (select doc ".product-card") [] _)
    as [[[|p ps]|e0] st2] eqn:Hparse; try discriminate.
  intro H. inversion H; subst.
  exact (parse_cards_raise _ _ _ _ _ Hparse).
Qed.

(** One turn of the pagination loop that ends normally: its listing
    request, then one detail request per record added. *)
Lemma scrape_page_ok category page st ctl st1 :
  scrape_page site urljoin category page st = (Ok ctl, st1) ->
  exists first details data,
    req_by first = Listing
    /\ requests st1 = (requests st ++ first :: details)%list
    /\ scraped_data st1 = (scraped_data st ++ data)%list
    /\ Forall2 enriched_by data details.
Proof.
  unfold scrape_page, bind, ret, _parse_product_listing.
  rewrite fetch_page_eq.
  set (u := listing_url (base_url st) category page).
  set (first := mkRequest Listing u (site (map req_url (requests st)) u)).
  assert (Hlog : requests (logged site Listing u st)
                 = (requests st ++ [first])%list) by reflexivity.
  destruct (site (map req_url (requests st)) u) as [doc|].
  - destruct (parse_cards site urljoin (select doc ".product-card") []
                (logged site Listing u st))
      as [[ps|e0] st2] eqn:Hparse; [ | discriminate ].
    pose proof (parse_cards_frame site urljoin (select doc ".product-card")
                  [] (logged site Listing u st)) as (_ & Hd & _).
    rewrite Hparse in Hd. simpl in Hd.
    destruct (parse_cards_ok _ _ _ _ _ Hparse)
      as (new & details & Hps & Hl & Hen).
    simpl in Hps. subst new. rewrite Hlog, <- app_assoc in Hl. simpl in Hl.
    destruct ps as [|p ps]; intro H; inversion H; subst.
    + exists first, details, []. rewrite app_nil_r. now repeat split.
    + exists first, details, (p :: ps). simpl. rewrite Hd. now repeat split.
  - intro H. inversion H; subst.
    exists first, [], []. rewrite app_nil_r.
    repeat split; [ exact Hlog | constructor ].
Qed.

(** Reasoning on the pagination loop, turn by turn. *)
Lemma scrape_loop_cases category max_pages
    (P : Z -> WebScraper -> Exc unit * WebScraper -> Prop) :
  (forall page st, page > max_pages -> P page st (Ok tt, st)) ->
  (forall page st st1,
     page <= max_pages ->
     scrape_page site urljoin category page st = (Ok Break, st1) ->
     P page st (Ok tt, st1)) ->
  (forall page st e st1,
     page <= max_pages ->
     scrape_page site urljoin category page st = (Raise e, st1) ->
     P page st (Raise e, st1)) ->
  (forall page st st1 res,
     page <= max_pages ->
     scrape_page site urljoin category page st = (Ok Next, st1) ->
     P (page + 1) st1 res ->
     P page st res) ->
  forall page st,
    P page st (scrape_loop site urljoin category max_pages page st).
Proof.
  intros Hdone Hbreak Hraise Hnext page st.
  remember (Z.to_nat (max_pages + 1 - page)) as k eqn:Hk.
  revert page st Hk.
  induction k as [|k IH]; intros page st Hk; rewrite scrape_loop_body;
    destruct (Z_le_gt_dec page max_pages) as [Hle|Hgt];
    try (exfalso; lia); try (now apply Hdone).
  destruct (scrape_page site urljoin category page st)
    as [[[|]|e] st1] eqn:Hpage.
  - apply (Hnext page st st1 _ Hle Hpage). apply IH. lia.
  - now apply Hbreak.
  - now apply Hraise.
Qed.

(** X3: [scrape_products] never ends with an [AttributeError] or a
    [ValueError]: those of the cards are caught card by card, and nothing
    else in the run raises one. *)
Theorem X3_no_caught_exception_escapes category max_pages st e :
  fst (scrape_products site urljoin category max_pages st) = Raise e ->
  e <> AttributeError /\ e <> ValueError.
Proof.
  unfold scrape_products.
  assert (H : forall e,
            fst (scrape_loop site urljoin category max_pages 1 st) = Raise e
            -> catches [AttributeError; ValueError] e = false).
  { apply (scrape_loop_cases category max_pages
             (fun _ _ res =>
                forall e, fst res = Raise e ->
                          catches [AttributeError; ValueError] e = false)).
    - intros page st0 _ e0 H0. discriminate.
    - intros page st0 st1 _ _ e0 H0. discriminate.
    - intros page st0 e0 st1 _ Hpage e1 H1. simpl in H1.
      inversion H1; subst. exact (scrape_page_raise _ _ _ _ _ Hpage).
    - intros page st0 st1 res _ _ IH. exact IH. }
  intro He. specialize (H e He). split; intros ->; discriminate.
Qed.

Lemma detail_requests_enriched data details :
  Forall2 enriched_by data details -> detail_requests details = details.
Proof.
  induction 1 as [|p r data details (Hby & _) _ IH]; [ reflexivity | ].
  unfold detail_requests in *. simpl. rewrite Hby. now rewrite IH.
Qed.

(** X5: when [scrape_products] ends normally, the detail requests of the
    run are, in order, one per record added, each to the URL of its record,
    and each record carries the category and stock flag read from the
    answer to its own request. *)
Theorem X5_run_records_match_detail_requests category max_pages st st' :
  scrape_products site urljoin category max_pages st = (Ok tt, st') ->
  exists new_reqs new_data,
    requests st' = (requests st ++ new_reqs)%list
    /\ scraped_data st' = (scraped_data st ++ new_data)%list
    /\ Forall2 enriched_by new_data (detail_requests new_reqs).
Proof.
  unfold scrape_products.
  assert (H : forall u,
            fst (scrape_loop site urljoin category max_pages 1 st) = Ok u ->
            exists new_reqs new_data,
              requests (snd (scrape_loop site urljoin category max_pages 1 st))
              = (requests st ++ new_reqs)%list
              /\ scraped_data
                   (snd (scrape_loop site urljoin category max_pages 1 st))
                 = (scraped_data st ++ new_data)%list
              /\ Forall2 enriched_by new_data (detail_requests new_reqs)).
  { apply (scrape_loop_cases category max_pages
             (fun _ st0 res =>
                forall u, fst res = Ok u ->
                  exists new_reqs new_data,
                    requests (snd res) = (requests st0 ++ new_reqs)%list
                    /\ scraped_data (snd res)
                       = (scraped_data st0 ++ new_data)%list
                    /\ Forall2 enriched_by new_data
                         (detail_requests new_reqs))).
    - intros page st0 _ u _. exists [], []. rewrite !app_nil_r.
      repeat split. constructor.
    - intros page st0 st1 _ Hpage u _.
      destruct (scrape_page_ok _ _ _ _ _ Hpage)
        as (first & details & data & Hby & Hl & Hd & Hen).
      exists (first :: details), data. simpl.
      split; [ exact Hl | split; [ exact Hd | ] ].
      unfold detail_requests. simpl. rewrite Hby.
      fold (detail_requests details).
      now rewrite (detail_requests_enriched _ _ Hen).
    - intros page st0 e st1 _ _ u Hu. discriminate.
    - intros page st0 st1 res _ Hpage IH u Hu.
      destruct (scrape_page_ok _ _ _ _ _ Hpage)
        as (first & details & data & Hby & Hl & Hd & Hen).
      destruct (IH u Hu) as (reqs2 & data2 & Hl2 & Hd2 & Hen2).
      exists (first :: details ++ reqs2)%list, (data ++ data2)%list.
      split; [ rewrite Hl2, Hl; now rewrite <- app_assoc | ].
      split; [ rewrite Hd2, Hd; now rewrite app_assoc | ].
      unfold detail_requests. simpl. rewrite Hby, filter_app.
      fold (detail_requests details). fold (detail_requests reqs2).
      rewrite (detail_requests_enriched _ _ Hen).
      now apply Forall2_app. }
  intro Hrun. specialize (H tt). rewrite Hrun in H. now apply H.
Qed.

(** X6: a listing page whose cards are all malformed ends the run like a
    page without cards: no detail request, no record, and no later page is
    fetched, whatever the page ceiling. *)
Theorem X6_page_of_malformed_cards_stops_run category max_pages page st doc :
  page <= max_pages ->
  site (map req_url (requests st))
       (listing_url (base_url st) category page) = Some doc ->
  Forall (malformed urljoin (base_url st)) (select doc ".product-card") ->
  scrape_loop site urljoin category max_pages page st
  = (Ok tt,
     logged site Listing (listing_url (base_url st) category page) st).
Proof.
  intros Hle Hdoc Hall. rewrite scrape_loop_body.
  destruct (Z_le_gt_dec page max_pages); [ | lia ].
  unfold scrape_page, bind, ret, _parse_product_listing.
  rewrite fetch_page_eq, Hdoc.
  rewrite (parse_cards_all_malformed (select doc ".product-card") []
             (logged site Listing (listing_url (base_url st) category page)
                st) Hall).
  reflexivity.
Qed.

(** X8: [scrape_products] does not read the result list: started with
    another list in its place, the run ends the same way, makes the same
    requests and adds the same records. *)
Theorem X8_run_independent_of_result_list category max_pages st l :
  let run := scrape_products site urljoin category max_pages st in
  let run' := scrape_products site urljoin category max_pages
                (with_scraped_data st l) in
  fst run' = fst run
  /\ requests (snd run') = requests (snd run)
  /\ exists new_data,
       scraped_data (snd run) = (scraped_data st ++ new_data)%list
       /\ scraped_data (snd run') = (l ++ new_data)%list.
Proof.
  unfold scrape_products.
  destruct (scrape_loop_data site urljoin category max_pages _ 1 st eq_refl)
    as (outcome & st' & data & Hrun).
  cbv zeta. rewrite (Hrun l).
  pose proof (Hrun (scraped_data st)) as Hown.
  rewrite with_own_scraped_data in Hown. rewrite Hown. simpl.
  split; [ reflexivity | split; [ reflexivity | ] ].
  now exists data.
Qed.

Lemma scraper_eq (st1 st2 : WebScraper) :
  base_url st1 = base_url st2 ->
  scraped_data st1 = scraped_data st2 ->
  requests st1 = requests st2 ->
  st1 = st2.
Proof.
  destruct st1, st2. simpl. congruence.
Qed.

Lemma scrape_page_break category page st st1 :
  scrape_page site urljoin category page st = (Ok Break, st1) ->
  st1 = logged site Listing (listing_url (base_url st) category page) st.
Proof.
  intro H. destruct (scrape_page_ok _ _ _ _ _ H)
    as (first & details & data & _ & Hl & _ & Hen).
  revert H Hl Hen.
  unfold scrape_page, bind, ret, _parse_product_listing.
  rewrite fetch_page_eq.
  set (st0 := logged site Listing (listing_url (base_url st) category page)
                st).
  destruct (site _ _) as [doc|]; [ | now intros [= <-] ].
  destruct (parse_cards site urljoin (select doc ".product-card") [] st0)
    as [[[|p ps]|e] st2] eqn:Hparse; try discriminate.
  intros [= <-] _ _.
  destruct (parse_cards_ok _ _ _ _ _ Hparse)
    as (new & details' & Hnew & Hl' & Hen').
  simpl in Hnew. subst new. inversion Hen'; subst.
  rewrite app_nil_r in Hl'.
  pose proof (parse_cards_frame site urljoin (select doc ".product-card")
                [] st0) as (Hb & Hd & _).
  rewrite Hparse in Hb, Hd.
  apply scraper_eq; [ exact Hb | exact Hd | exact Hl' ].
Qed.

(** X12: a run that ends normally after fewer listing requests than the
    page ceiling allows ends on a listing request: the last page asked for
    could not be fetched or gave no record, and no detail request follows
    it. *)
Theorem X12_early_stop_ends_on_listing category max_pages st st' :
  scrape_products site urljoin category max_pages st = (Ok tt, st') ->
  exists new_reqs,
    requests st' = (requests st ++ new_reqs)%list
    /\ ((List.length (listing_requests new_reqs) < Z.to_nat max_pages)%nat ->
        exists earlier last,
          new_reqs = (earlier ++ [last])%list /\ req_by last = Listing).
Proof.
  unfold scrape_products.
  assert (H : forall u,
            fst (scrape_loop site urljoin category max_pages 1 st) = Ok u ->
            exists new_reqs,
              requests (snd (scrape_loop site urljoin category max_pages 1 st))
              = (requests st ++ new_reqs)%list
              /\ ((List.length (listing_requests new_reqs)
                   < Z.to_nat (max_pages + 1 - 1))%nat ->
                  exists earlier last,
                    new_reqs = (earlier ++ [last])%list
                    /\ req_by last = Listing)).
  { apply (scrape_loop_cases category max_pages
             (fun page st0 res =>
                forall u, fst res = Ok u ->
                  exists new_reqs,
                    requests (snd res) = (requests st0 ++ new_reqs)%list
                    /\ ((List.length (listing_requests new_reqs)
                         < Z.to_nat (max_pages + 1 - page))%nat ->
                        exists earlier last,
                          new_reqs = (earlier ++ [last])%list
                          /\ req_by last = Listing))).
    - intros page st0 Hgt u _. exists []. rewrite app_nil_r.
      split; [ reflexivity | ]. simpl. lia.
    - intros page st0 st1 _ Hpage u _.
      apply scrape_page_break in Hpage. subst st1.
      eexists [_]. split; [ reflexivity | ].
      intros _. now exists [], (mkRequest Listing
                                  (listing_url (base_url st0) category page)
                                  (site (map req_url (requests st0))
                                     (listing_url (base_url st0) category
                                        page))).
    - intros page st0 e st1 _ _ u Hu. discriminate.
    - intros page st0 st1 res Hle Hpage IH u Hu.
      destruct (scrape_page_ok _ _ _ _ _ Hpage)
        as (first & details & data & Hby & Hl & _ & Hen).
      destruct (IH u Hu) as (reqs2 & Hl2 & Hlast).
      exists (first :: details ++ reqs2)%list.
      split; [ rewrite Hl2, Hl; now rewrite <- app_assoc | ].
      assert (Hcount : List.length
                         (listing_requests (first :: details ++ reqs2))
                       = S (List.length (listing_requests reqs2))).
      { unfold listing_requests. simpl. rewrite Hby, filter_app. simpl.
        fold (listing_requests details).
        rewrite (listing_requests_details details); [ reflexivity | ].
        clear - Hen. induction Hen as [|p r ? ? (Hr & _) _ IHen];
          constructor; assumption. }
      rewrite Hcount. intro Hlt.
      destruct Hlast as (earlier & last & -> & Hlisting); [ lia | ].
      exists (first :: details ++ earlier)%list, last.
      split; [ | exact Hlisting ].
      simpl. now rewrite <- app_assoc. }
  intro Hrun. specialize (H tt). rewrite Hrun in H.
  destruct (H eq_refl) as (new_reqs & Hl & Hlast).
  exists new_reqs. split; [ exact Hl | ].
  replace (max_pages + 1 - 1) with max_pages in Hlast by lia. exact Hlast.
Qed.

(** ** Listing URLs *)







(** ** The turns of a run *)

Lemma valid_fields_reached_nil base cards :
  valid_fields urljoin base cards = [] ->
  valid_fields urljoin base (reached urljoin base cards) = [].
Proof.
  induction cards as [|card cards IH]; cbn [valid_fields reached];
    [ reflexivity | ].
  destruct (card_fields urljoin base card) as [f|e] eqn:Hf;
    [ discriminate | ].
  intro H.
  destruct (catches [AttributeError; ValueError] e);
    cbn [valid_fields]; rewrite Hf; [ now apply IH | reflexivity ].
Qed.

(** The loop over the cards of a page, however it ends: one detail request
    for each card that parses among the cards it gets to, and, when it ends
    normally, the records of the cards that parse. *)
Lemma parse_cards_trace cards :
  forall products st,
    let res := parse_cards site urljoin cards products st in
    exists details,
      requests (snd res) = (requests st ++ details)%list
      /\ Forall (fun q => req_by q = Detail) details
      /\ map req_url details
         = map snd (valid_fields urljoin (base_url st)
                      (reached urljoin (base_url st) cards))
      /\ (forall ps,
            fst res = Ok ps ->
            exists new,
              ps = (products ++ new)%list
              /\ map fields_of new
                 = valid_fields urljoin (base_url st) cards).
Proof.
  induction cards as [|card cards IH]; intros products st; cbv zeta;
    cbn [parse_cards valid_fields reached].
  - exists []. simpl. rewrite app_nil_r. repeat split; [ constructor | ].
    intros ps [= <-]. exists []. now rewrite app_nil_r.
  - unfold bind. rewrite parse_card_step_eq.
    destruct (card_fields urljoin (base_url st) card) as [f|e] eqn:Hf.
    + specialize (IH (products ++ [make_product f
                        (details_of_response
                           (site (map req_url (requests st)) (snd f)))])%list
                     (logged site Detail (snd f) st)).
      cbv zeta in IH. destruct IH as (details & Hl & Fd & Hu & Hok).
      exists (mkRequest Detail (snd f)
                (site (map req_url (requests st)) (snd f)) :: details).
      split; [ rewrite Hl; simpl; now rewrite <- app_assoc | ].
      split; [ now constructor | ].
      split; [ cbn [valid_fields map]; rewrite Hf; cbn [map];
               now rewrite Hu | ].
      intros ps Hps. destruct (Hok ps Hps) as (new & -> & Hnew).
      eexists (_ :: new). split; [ now rewrite <- app_assoc | ].
      simpl. rewrite fields_of_make_product. simpl in Hnew.
      now rewrite Hnew.
    + destruct (catches [AttributeError; ValueError] e).
      * specialize (IH products st). cbv zeta in IH.
        destruct IH as (details & Hl & Fd & Hu & Hok).
        exists details. cbn [valid_fields]. rewrite Hf. now repeat split.
      * exists []. cbn [valid_fields]. rewrite Hf. simpl.
        rewrite app_nil_r. repeat split; [ constructor | discriminate ].
Qed.

(** One turn of the pagination loop, however it ends. *)
Lemma scrape_page_turn category page st :
  let res := scrape_page site urljoin category page st in
  exists t : Turn,
    requests (snd res) = (requests st ++ turn_requests t)%list
    /\ req_url (fst t) = listing_url (base_url st) category page
    /\ one_fetch_per_card urljoin (base_url st) t
    /\ (yields_nothing urljoin (base_url st) (fst t) ->
        snd t = [] /\ fst res <> Ok Next).
Proof.
  cbv zeta. unfold scrape_page, bind, ret, _parse_product_listing.
  rewrite fetch_page_eq.
  set (u := listing_url (base_url st) category page).
  assert (Hlog : forall resp,
            site (map req_url (requests st)) u = resp ->
            requests (logged site Listing u st)
            = (requests st ++ [mkRequest Listing u resp])%list)
    by (intros resp <-; reflexivity).
  destruct (site (map req_url (requests st)) u) as [doc|] eqn:Hresp.
  - specialize (Hlog _ eq_refl).
    pose proof (parse_cards_trace (select doc ".product-card") []
                  (logged site Listing u st)) as Htrace.
    cbv zeta in Htrace. destruct Htrace as (details & Hl & Fd & Hu & Hok).
    change (base_url (logged site Listing u st)) with (base_url st)
      in Hu, Hok.
    rewrite Hlog, <- app_assoc in Hl. simpl in Hl.
    assert (Hnone : yields_nothing urljoin (base_url st)
                      (mkRequest Listing u (Some doc)) ->
                    details = []
                    /\ forall p ps,
                         fst (parse_cards site urljoin
                                (select doc ".product-card") []
                                (logged site Listing u st))
                         <> Ok (p :: ps)).
    { intros [H | (doc' & H & Hval)]; simpl in H; [ discriminate | ].
      injection H as <-. split.
      - apply valid_fields_reached_nil in Hval. rewrite Hval in Hu.
        now apply map_eq_nil in Hu.
      - intros p ps Hps. destruct (Hok _ Hps) as (new & Hnew & Hf).
        rewrite Hval in Hf. apply map_eq_nil in Hf. subst new.
        discriminate. }
    exists (mkRequest Listing u (Some doc), details).
    destruct (parse_cards site urljoin (select doc ".product-card") []
                (logged site Listing u st)) as [[[|p ps]|e] st2];
      simpl in *;
      (split; [ exact Hl | ]; split; [ reflexivity | ];
       split; [ now repeat split | ];
       intro Hy; destruct (Hnone Hy) as (Hd & Hgo);
       split; [ exact Hd | ]; try discriminate).
    now destruct (Hgo p ps).
  - specialize (Hlog _ eq_refl).
    exists (mkRequest Listing u None, []). simpl.
    split; [ exact Hlog | ]. split; [ reflexivity | ].
    split; [ repeat split; constructor | ].
    intros _. split; [ reflexivity | discriminate ].
Qed.

Lemma listing_requests_turns base turns :
  Forall (one_fetch_per_card urljoin base) turns ->
  listing_requests (flat_map turn_requests turns) = map fst turns.
Proof.
  induction 1 as [|t turns (Hby & Fd & _) _ IH]; [ reflexivity | ].
  simpl. unfold listing_requests in *. simpl.
  rewrite Hby, filter_app, IH.
  fold (listing_requests (snd t)).
  now rewrite (listing_requests_details (snd t) Fd).
Qed.

Lemma length_pages_from n : forall page, List.length (pages_from page n) = n.
Proof.
  induction n as [|n IH]; intro page; simpl; [ reflexivity | ].
  now rewrite IH.
Qed.

(** The pagination loop from [page] on, turn by turn. *)
Lemma scrape_loop_turns category max_pages page st :
  let res := scrape_loop site urljoin category max_pages page st in
  exists turns,
    requests (snd res) = (requests st ++ flat_map turn_requests turns)%list
    /\ (List.length turns <= Z.to_nat (max_pages + 1 - page))%nat
    /\ map (fun t => req_url (fst t)) turns
       = map (listing_url (base_url st) category)
             (pages_from page (List.length turns))
    /\ Forall (one_fetch_per_card urljoin (base_url st)) turns
    /\ stops_on_nothing urljoin (base_url st) turns.
Proof.
  cbv zeta.
  apply (scrape_loop_cases category max_pages
           (fun page st res =>
              exists turns,
                requests (snd res)
                = (requests st ++ flat_map turn_requests turns)%list
                /\ (List.length turns
                    <= Z.to_nat (max_pages + 1 - page))%nat
                /\ map (fun t => req_url (fst t)) turns
                   = map (listing_url (base_url st) category)
                         (pages_from page (List.length turns))
                /\ Forall (one_fetch_per_card urljoin (base_url st)) turns
                /\ stops_on_nothing urljoin (base_url st) turns)).
  - intros pg st0 _. exists []. simpl. rewrite app_nil_r.
    split; [ reflexivity | ]. split; [ lia | ].
    split; [ reflexivity | ]. split; [ constructor | ].
    intros pre t post H. now destruct pre.
  - intros pg st0 st1 Hle Hpage.
    pose proof (scrape_page_turn category pg st0) as Hturn.
    cbv zeta in Hturn. rewrite Hpage in Hturn. simpl in Hturn.
    destruct Hturn as (t & Hl & Hu & Hone & Hstop).
    exists [t]. simpl. rewrite app_nil_r.
    split; [ exact Hl | ]. split; [ lia | ].
    split; [ now rewrite Hu | ]. split; [ now constructor | ].
    intros pre t' post Heq Hy.
    destruct pre as [|q pre]; [ | now destruct pre ].
    injection Heq as <- <-. now destruct (Hstop Hy).
  - intros pg st0 e st1 Hle Hpage.
    pose proof (scrape_page_turn category pg st0) as Hturn.
    cbv zeta in Hturn. rewrite Hpage in Hturn. simpl in Hturn.
    destruct Hturn as (t & Hl & Hu & Hone & Hstop).
    exists [t]. simpl. rewrite app_nil_r.
    split; [ exact Hl | ]. split; [ lia | ].
    split; [ now rewrite Hu | ]. split; [ now constructor | ].
    intros pre t' post Heq Hy.
    destruct pre as [|q pre]; [ | now destruct pre ].
    injection Heq as <- <-. now destruct (Hstop Hy).
  - intros pg st0 st1 res Hle Hpage (turns & Hl2 & Hn & Hu2 & Hall & Hstop2).
    pose proof (scrape_page_turn category pg st0) as Hturn.
    pose proof (scrape_page_spec site urljoin category pg st0) as Hspec.
    cbv zeta in Hturn, Hspec. rewrite Hpage in Hturn, Hspec.
    simpl in Hturn, Hspec.
    destruct Hspec as (_ & _ & Hb & _).
    destruct Hturn as (t & Hl & Hu & Hone & Hstop).
    rewrite Hb in Hu2, Hall, Hstop2.
    exists (t :: turns). simpl.
    split; [ rewrite Hl2, Hl; unfold turn_requests; simpl;
             now rewrite <- app_assoc | ].
    split; [ lia | ]. split; [ now rewrite Hu, Hu2 | ].
    split; [ now constructor | ].
    intros pre t' post Heq Hy.
    destruct pre as [|q pre]; simpl in Heq; injection Heq as Hq Hrest.
    + subst t'. destruct (Hstop Hy) as (_ & Hgo). now destruct Hgo.
    + exact (Hstop2 pre t' post Hrest Hy).
Qed.

(** C3: [scrape_products] always ends (it is a total function, by
    recursion on the pages left).  Its requests come in turns, at most
    [max_pages] of them: the listing request of page 1, 2, ... in this
    order, so that no page is asked for twice, each followed by the detail
    requests of its page, one for each card that parses among the cards
    the loop gets to and none for any other, so that no detail page is
    asked for again either.  A turn whose listing fetch failed, or whose
    page gave no record (it has no card, or none that parses), makes no
    detail request and is the last: nothing at all is requested after
    it. *)
Theorem C3_scrape_bounded_no_retry category max_pages st :
  exists outcome st' turns,
    let new_reqs := flat_map turn_requests turns in
    scrape_products site urljoin category max_pages st = (outcome, st')
    /\ requests st' = (requests st ++ new_reqs)%list
    /\ (List.length (listing_requests new_reqs) <= Z.to_nat max_pages)%nat
    /\ map req_url (listing_requests new_reqs)
       = map (listing_url (base_url st) category)
             (pages_from 1 (List.length (listing_requests new_reqs)))
    /\ stops_at_failure new_reqs
    /\ listing_requests new_reqs = map fst turns
    /\ Forall (one_fetch_per_card urljoin (base_url st)) turns
    /\ stops_on_nothing urljoin (base_url st) turns.
Proof.
  unfold scrape_products.
  pose proof (scrape_loop_turns category max_pages 1 st) as Hturns.
  pose proof (scrape_loop_spec site urljoin category max_pages
                (Z.to_nat (max_pages + 1 - 1)) 1 st eq_refl) as Hloop.
  cbv zeta in Hturns, Hloop.
  destruct Hturns as (turns & Hl & Hn & Hu & Hall & Hstop).
  destruct Hloop as (reqs & _ & _ & _ & _ & Hl' & _ & _ & Hs).
  rewrite Hl in Hl'. apply app_inv_head in Hl'. subst reqs.
  destruct (scrape_loop site urljoin category max_pages 1 st)
    as [outcome st'].
  exists outcome, st', turns. cbv zeta. simpl in Hl.
  rewrite (listing_requests_turns _ _ Hall), length_map, map_map.
  replace (max_pages + 1 - 1) with max_pages in Hn by lia.
  repeat (split; [ assumption || reflexivity | ]). exact Hstop.
Qed.

End Further.

(** ** The stock status *)

Lemma isspace_lower_char c :
  PyStr.isspace (PyStr.lower_char c) = PyStr.isspace c.
Proof.
  destruct c as [[] [] [] [] [] [] [] []]; reflexivity.
Qed.

Lemma lower_lstrip s : PyStr.lower (PyStr.lstrip s) = PyStr.lstrip (PyStr.lower s).
Proof.
  induction s as [|c s IH]; simpl; [ reflexivity | ].
  rewrite isspace_lower_char.
  destruct (PyStr.isspace c); [ exact IH | reflexivity ].
Qed.

Lemma lower_rstrip s : PyStr.lower (PyStr.rstrip s) = PyStr.rstrip (PyStr.lower s).
Proof.
  induction s as [|c s IH]; simpl; [ reflexivity | ].
  rewrite <- IH, isspace_lower_char.
  destruct (PyStr.rstrip s); simpl; [ | reflexivity ].
  destruct (PyStr.isspace c); reflexivity.
Qed.

Lemma lower_strip s : PyStr.lower (PyStr.strip s) = PyStr.strip (PyStr.lower s).
Proof.
  unfold PyStr.strip. now rewrite lower_rstrip, lower_lstrip.
Qed.

Lemma nonspace_neq_space a c :
  PyStr.isspace a = false -> PyStr.isspace c = true -> Ascii.eqb a c = false.
Proof.
  intros Ha Hc. destruct (Ascii.eqb_spec a c); [ congruence | reflexivity ].
Qed.

(** White space before a text hides no occurrence of a pattern that
    starts with another character. *)
Lemma contains_lstrip a p s :
  PyStr.isspace a = false ->
  PyStr.contains (String a p) (PyStr.lstrip s)
  = PyStr.contains (String a p) s.
Proof.
  intro Ha. induction s as [|c s IH]; [ reflexivity | ].
  cbn [PyStr.lstrip].
  destruct (PyStr.isspace c) eqn:Hc; [ | reflexivity ].
  rewrite IH. cbn [PyStr.contains PyStr.startswith].
  now rewrite (nonspace_neq_space a c Ha Hc).
Qed.

Lemma startswith_nil p : PyStr.startswith p "" = match p with
                                                 | EmptyString => true
                                                 | String _ _ => false
                                                 end.
Proof. now destruct p. Qed.

(** White space after a text does not decide whether the text starts with
    a pattern that ends with another character. *)
Lemma startswith_rstrip p :
  ends_nonspace p = true ->
  forall s, PyStr.startswith p (PyStr.rstrip s) = PyStr.startswith p s.
Proof.
  induction p as [|a p IH]; [ discriminate | ].
  intros Hp s. destruct s as [|c s]; [ reflexivity | ].
  cbn [PyStr.rstrip PyStr.startswith].
  destruct p as [|b p].
  - simpl in Hp. apply negb_true_iff in Hp.
    destruct (PyStr.rstrip s); [ | now rewrite !andb_true_r ].
    destruct (PyStr.isspace c) eqn:Hc; simpl;
      [ now rewrite (nonspace_neq_space a c Hp Hc) | now rewrite andb_true_r ].
  - specialize (IH Hp). rewrite <- (IH s).
    destruct (PyStr.rstrip s) as [|d r]; [ | reflexivity ].
    destruct (PyStr.isspace c); simpl; now rewrite andb_false_r.
Qed.

Lemma contains_rstrip p :
  ends_nonspace p = true ->
  forall s, PyStr.contains p (PyStr.rstrip s) = PyStr.contains p s.
Proof.
  intros Hp s. induction s as [|c s IH]; [ reflexivity | ].
  cbn [PyStr.contains]. rewrite <- IH.
  rewrite <- (startswith_rstrip p Hp (String c s)).
  cbn [PyStr.rstrip].
  destruct (PyStr.rstrip s) as [|d r]; [ | reflexivity ].
  destruct p as [|a p]; [ discriminate | ].
  destruct (PyStr.isspace c); reflexivity.
Qed.

Lemma in_stock_ignores_strip s :
  PyStr.contains "in stock" (PyStr.lower (PyStr.strip s))
  = PyStr.contains "in stock" (PyStr.lower s).
Proof.
  rewrite lower_strip. unfold PyStr.strip.
  rewrite contains_rstrip by reflexivity.
  now rewrite contains_lstrip by reflexivity.
Qed.

(** X7: when the detail page is fetched and has both elements, the
    enrichment holds the stripped breadcrumb text and the stock flag, and
    the flag is whether ["in stock"] occurs in the lower-cased status text:
    the white space stripped around that text never matters, and the flag
    depends on the text up to the case of its letters only. *)
Theorem X7_stock_flag_of_status_text site url st doc crumb status :
  site (map req_url (requests st)) url = Some doc ->
  select_one doc ".breadcrumb a:last-child" = Some crumb ->
  select_one doc ".stock-status" = Some status ->
  fst (_get_product_details site url st)
  = Ok {| d_category := Some (PyStr.strip (tag_text crumb));
          d_in_stock :=
            Some (PyStr.contains "in stock"
                    (PyStr.lower (tag_text status))) |}.
Proof.
  intros Hdoc Hc Hs. rewrite get_product_details_eq, Hdoc. simpl.
  unfold read_details. rewrite Hc, Hs. simpl.
  now rewrite in_stock_ignores_strip.
Qed.

(** ** Trimmed texts *)

Lemma rstrip_ends s :
  PyStr.rstrip s = "" \/ ends_nonspace (PyStr.rstrip s) = true.
Proof.
  induction s as [|c s IH]; [ now left | ].
  cbn [PyStr.rstrip].
  destruct (PyStr.rstrip s) as [|d r].
  - destruct (PyStr.isspace c) eqn:Hc; [ now left | right ].
    simpl. now rewrite Hc.
  - right. destruct IH as [IH | IH]; [ discriminate | exact IH ].
Qed.

Lemma strip_trimmed s : trimmed (PyStr.strip s) = true.
Proof.
  unfold PyStr.strip.
  assert (Hl : PyStr.lstrip s = ""
               \/ exists c r, PyStr.lstrip s = String c r
                              /\ PyStr.isspace c = false).
  { induction s as [|c s IH]; [ now left | ]. simpl.
    destruct (PyStr.isspace c) eqn:Hc; [ exact IH | right; eauto ]. }
  destruct Hl as [-> | (c & r & -> & Hc)]; [ reflexivity | ].
  pose proof (rstrip_ends (String c r)) as Hends.
  cbn [PyStr.rstrip] in *.
  destruct (PyStr.rstrip r) as [|d r'].
  - rewrite Hc in *. simpl. now rewrite Hc.
  - destruct Hends as [Hends | Hends]; [ discriminate | ].
    unfold trimmed. now rewrite Hc, Hends.
Qed.

(** X11: the texts of a record are trimmed: the name and the description
    of every record appended, and its category when it has one, have no
    white space at either end (they may be empty). *)
Theorem X11_record_texts_trimmed site urljoin card products st p st' :
  parse_card_step site urljoin card products st
  = (Ok (products ++ [p])%list, st') ->
  trimmed (name p) = true
  /\ trimmed (description p) = true
  /\ forall c, category p = Some c -> trimmed c = true.
Proof.
  rewrite parse_card_step_eq.
  destruct (card_fields urljoin (base_url st) card) as [f|e] eqn:Hf.
  - intro H. inversion H as [[Hp Hst]].
    apply app_inv_head in Hp. inversion Hp as [Hp']. clear H Hp.
    revert Hf. unfold card_fields.
    destruct (text_of (select_one card ".product-name")) as [n|];
      [ simpl | discriminate ].
    destruct (text_of (select_one card ".product-price")) as [t|];
      [ simpl | discriminate ].
    destruct (PyFloat.of_str _) as [x|]; [ simpl | discriminate ].
    destruct (text_of (select_one card ".product-description")) as [d|];
      [ simpl | discriminate ].
    destruct (getitem (select_one card ".product-rating") "data-rating")
      as [r|]; [ simpl | discriminate ].
    destruct (PyFloat.of_str r) as [y|]; [ simpl | discriminate ].
    destruct (getitem (select_one card "a") "href") as [h|];
      [ simpl | discriminate ].
    destruct (urljoin (base_url st) h) as [u|]; [ simpl | discriminate ].
    intros [= <-]. simpl.
    split; [ apply strip_trimmed | split; [ apply strip_trimmed | ] ].
    intro c. destruct (site (map req_url (requests st)) u) as [doc|];
      [ | discriminate ].
    simpl. unfold read_details.
    destruct (text_of (select_one doc ".breadcrumb a:last-child")) as [cr|];
      [ simpl | discriminate ].
    destruct (text_of (select_one doc ".stock-status")) as [ss|];
      [ simpl | discriminate ].
    intros [= <-]. apply strip_trimmed.
  - destruct (catches [AttributeError; ValueError] e); intro H;
      [ | discriminate ].
    inversion H as [[H1 H2]]. symmetry in H1.
    now apply app_singleton_neq in H1.
Qed.

(** ** Export and command line *)

Section ExportProperties.

Variable site : Site.
Variable urljoin : string -> string -> Exc string.
Variable FS : Type.
Variable write_file : FS -> string -> string -> FS.
Variable csv_text : list Product -> string.
Variable json_text : list Product -> string.

Lemma scrape_products_no_pages category pages st :
  pages <= 0 ->
  scrape_products site urljoin category pages st = (Ok tt, st).
Proof.
  intro H. unfold scrape_products. rewrite scrape_loop_body.
  destruct (Z_le_gt_dec 1 pages); [ lia | reflexivity ].
Qed.

(** X10: [main] leaves the file system as it is when the scrape raises,
    when it collects no record (as it does with a page ceiling of zero or
    less), and when no export is asked for; otherwise it writes the CSV
    file first if asked for, then the JSON file if asked for, the second
    whatever became of the first. *)
Theorem X10_main_exports category pages csv json fs :
  let run := scrape_products site urljoin category pages
               (init "https://scrape-test-site.vercel.app") in
  let fs' := snd (main site urljoin FS write_file csv_text json_text
                    category pages csv json fs) in
  ((exists e, fst run = Raise e)
   \/ scraped_data (snd run) = []
   \/ pages <= 0
   \/ (csv = false /\ json = false) ->
   fs' = fs)
  /\ (forall u p ps,
        fst run = Ok u ->
        scraped_data (snd run) = p :: ps ->
        fs'
        = let fs1 := if csv
                     then write_file fs "products.csv" (csv_text (p :: ps))
                     else fs in
          if json
          then write_file fs1 "products.json" (json_text (p :: ps))
          else fs1).
Proof.
  cbv zeta. unfold main, export_to_csv, export_to_json.
  pose proof (scrape_products_no_pages category pages
                (init "https://scrape-test-site.vercel.app")) as Hzero.
  destruct (scrape_products site urljoin category pages
              (init "https://scrape-test-site.vercel.app"))
    as [[u|e] st] eqn:Hrun; simpl in *.
  - split.
    + intros [[e He] | [Hnil | [Hpages | [-> ->]]]].
      * discriminate.
      * rewrite Hnil. now destruct csv, json.
      * specialize (Hzero Hpages). inversion Hzero; subst.
        now destruct csv, json.
      * reflexivity.
    + intros u' p ps _ Hdata. rewrite Hdata. reflexivity.
  - split; [ reflexivity | ]. intros u' p ps Habs. discriminate.
Qed.

End ExportProperties.

(** * The claims on the sample site *)

Import Sample.

Example listing_url_all :
  listing_url BASE_URL "all" 2
  = "https://scrape-test-site.vercel.app/products?page=2".
Proof. reflexivity. Qed.

Example listing_url_category :
  listing_url BASE_URL "books" 12
  = "https://scrape-test-site.vercel.app/products/books?page=12".
Proof. reflexivity. Qed.

Example shop_run :
  map name
    (scraped_data
       (snd (scrape_products shop urljoin_rooted "all" MAX_PAGES
               (init BASE_URL))))
  = ["Desk lamp"; "Mug"].
Proof. vm_compute. reflexivity. Qed.

(** The catalog run: three records, three listing requests (the third
    finds the empty page) and three detail requests. *)
Example catalog_run :
  let st := snd (scrape_products catalog urljoin_rooted "all" MAX_PAGES
                   (init BASE_URL)) in
  map name (scraped_data st) = ["Desk lamp"; "Mug"; "Desk lamp"]
  /\ map req_by (requests st)
     = [Listing; Detail; Detail; Listing; Detail; Listing].
Proof. vm_compute. split; reflexivity. Qed.

(** C1 as stated fails: the card without a description has a name and a
    price that parse, and no record is appended for it. *)
Lemma C1_counterexample :
  ~ (forall site urljoin card products st,
       record_added site urljoin card products st
       <-> name_parses card /\ price_parses card).
Proof.
  intro H.
  destruct (H shop urljoin_rooted undescribed [] (init BASE_URL))
    as [_ Hadd].
  assert (Hrec : record_added shop urljoin_rooted undescribed []
                   (init BASE_URL)).
  { apply Hadd. split.
    - eexists. reflexivity.
    - eexists. eexists. split; reflexivity. }
  apply record_added_iff in Hrec. destruct Hrec as [f Hf].
  vm_compute in Hf. discriminate.
Qed.

Lemma C1_witness :
  record_added shop urljoin_rooted lamp [] (init BASE_URL).
Proof.
  apply (proj1 (C1_record_added_iff_all_fields_parse
                  shop urljoin_rooted lamp [] (init BASE_URL))).
  repeat split.
  - eexists. reflexivity.
  - eexists. eexists. split; reflexivity.
  - eexists. reflexivity.
  - eexists. eexists. split; reflexivity.
  - eexists. eexists. split; reflexivity.
Defined.

(** C2 as stated fails: on a detail page with a breadcrumb and no
    stock-status element, the category is not returned either. *)
Lemma C2_counterexample :
  ~ (forall site url st doc d st',
       site (map req_url (requests st)) url = Some doc ->
       select_one doc ".breadcrumb a:last-child" <> None ->
       select_one doc ".stock-status" = None ->
       _get_product_details site url st = (Ok d, st') ->
       d_category d <> None).
Proof.
  intro H.
  apply (H (mirror detail_no_stock) "/product/1" (init BASE_URL)
           detail_no_stock no_details
           (logged (mirror detail_no_stock) Detail "/product/1"
              (init BASE_URL)));
    try reflexivity.
  discriminate.
Qed.

Lemma C2_witness :
  fst (_get_product_details shop (BASE_URL ++ "/product/1") (init BASE_URL))
  = Ok {| d_category := Some "Lighting"; d_in_stock := Some true |}.
Proof.
  apply (proj2 (C2_details_all_or_nothing
                  shop (BASE_URL ++ "/product/1") (init BASE_URL))
               detail_full).
  reflexivity.
Defined.

(** C4 fails on the code: a card without rating element raises a
    [TypeError], which the [except] clause of the loop does not catch; the
    page is abandoned, and so is the run. *)
Theorem C4_missing_rating_aborts_page :
  _parse_product_listing unrated_shop urljoin_rooted
    (listing [unrated; lamp]) (init BASE_URL)
  = (Raise TypeError, init BASE_URL)
  /\ scrape_products unrated_shop urljoin_rooted "all" MAX_PAGES
       (init BASE_URL)
     = (Raise TypeError,
        logged unrated_shop Listing (BASE_URL ++ "/products?page=1")
          (init BASE_URL)).
Proof. split; vm_compute; reflexivity. Qed.

(** C5 as stated fails: a second call of [scrape_products] on the same
    scraper does not start from an empty list; it returns the records of
    the first call followed by its own. *)
Lemma C5_counterexample :
  ~ (forall site urljoin category max_pages st,
       scraped_data (snd (scrape_products site urljoin category max_pages st))
       = scraped_data
           (snd (scrape_products site urljoin category max_pages
                   (with_scraped_data st [])))).
Proof.
  intro H.
  specialize (H shop urljoin_rooted "all" MAX_PAGES
                (snd (scrape_products shop urljoin_rooted "all" MAX_PAGES
                        (init BASE_URL)))).
  apply (f_equal (@List.length Product)) in H.
  vm_compute in H. discriminate.
Qed.

Lemma C6_witness :
  exists p,
    parse_card_step bare_shop urljoin_rooted lamp [] (init BASE_URL)
    = (Ok [p], logged bare_shop Detail (BASE_URL ++ "/product/1")
                 (init BASE_URL))
    /\ category p = None /\ in_stock p = true.
Proof.
  apply (C6_failed_enrichment_defaults bare_shop urljoin_rooted lamp []
           (init BASE_URL)
           ("Desk lamp", FFinite (1999 # 100), "A lamp.", FFinite (9 # 2),
            BASE_URL ++ "/product/1")).
  - reflexivity.
  - left. reflexivity.
Defined.

Lemma C7_witness :
  price (make_product
           ("Desk lamp", FFinite (1999 # 100), "A lamp.", FFinite (9 # 2),
            BASE_URL ++ "/product/1")
           {| d_category := Some "Lighting"; d_in_stock := Some true |})
  = FFinite (1999 # 100)
  /\ parse_cards shop urljoin_rooted [lamp; unpriced; mug] []
       (init BASE_URL)
     = parse_cards shop urljoin_rooted [lamp; mug] [] (init BASE_URL)
  /\ exists new details st',
       parse_cards shop urljoin_rooted [lamp; unpriced; mug] []
         (init BASE_URL)
       = (Ok ([] ++ new)%list, st')
       /\ map fields_of new
          = [("Desk lamp", FFinite (1999 # 100), "A lamp.", FFinite (9 # 2),
              BASE_URL ++ "/product/1");
             ("Mug", FFinite (15 # 2), "A mug.", FFinite 3,
              BASE_URL ++ "/product/2")]
       /\ requests st' = ([] ++ details)%list
       /\ Forall2 enriched_by new details.
Proof.
  split; [ | split ].
  - apply (proj2 (proj1 (C7_price_conversion_and_skip shop urljoin_rooted))
             lamp (init BASE_URL) _
             (logged shop Detail (BASE_URL ++ "/product/1")
                (init BASE_URL)));
      reflexivity.
  - apply (proj2 (C7_price_conversion_and_skip shop urljoin_rooted)
             [lamp] unpriced [mug] [] (init BASE_URL) "$");
      reflexivity.
  - apply (proj2 (C7_price_conversion_and_skip shop urljoin_rooted)
             [lamp] unpriced [mug] [] (init BASE_URL) "$");
      try reflexivity.
    repeat constructor; intros e H; vm_compute in H; discriminate.
Defined.

Lemma C8_witness :
  fst (_get_product_details shop (BASE_URL ++ "/product/1") (init BASE_URL))
  = fst (_get_product_details (mirror detail_full) "/elsewhere"
           (logged shop Listing "/seen" (init BASE_URL))).
Proof.
  apply (proj1 (C8_enrichment_deterministic_merge_idempotent shop)).
  reflexivity.
Defined.

Lemma C10_witness :
  scrape_products shop urljoin_rooted "all" 0 (init BASE_URL)
  = (Ok tt, init BASE_URL).
Proof.
  apply C10_no_pages_no_fetch. lia.
Defined.

Lemma C3_witness :
  exists outcome st' turns,
    let new_reqs := flat_map turn_requests turns in
    scrape_products junk_shop urljoin_rooted "all" MAX_PAGES (init BASE_URL)
    = (outcome, st')
    /\ requests st' = ([] ++ new_reqs)%list
    /\ (List.length (listing_requests new_reqs) <= 3)%nat
    /\ map req_url (listing_requests new_reqs)
       = map (listing_url BASE_URL "all")
             (pages_from 1 (List.length (listing_requests new_reqs)))
    /\ stops_at_failure new_reqs
    /\ listing_requests new_reqs = map fst turns
    /\ Forall (one_fetch_per_card urljoin_rooted BASE_URL) turns
    /\ stops_on_nothing urljoin_rooted BASE_URL turns.
Proof.
  exact (C3_scrape_bounded_no_retry junk_shop urljoin_rooted "all" MAX_PAGES
           (init BASE_URL)).
Defined.

(** The run on the shop whose first page has nothing but unusable cards,
    and the run on the catalog, turn by turn. *)
Example junk_shop_run :
  map req_url
    (requests (snd (scrape_products junk_shop urljoin_rooted "all" MAX_PAGES
                      (init BASE_URL))))
  = ["https://scrape-test-site.vercel.app/products?page=1"].
Proof. vm_compute. reflexivity. Qed.

Example catalog_requests :
  map (fun r => (req_by r, req_url r))
    (requests (snd (scrape_products catalog urljoin_rooted "all" MAX_PAGES
                      (init BASE_URL))))
  = [(Listing, "https://scrape-test-site.vercel.app/products?page=1");
     (Detail, "https://scrape-test-site.vercel.app/product/1");
     (Detail, "https://scrape-test-site.vercel.app/product/2");
     (Listing, "https://scrape-test-site.vercel.app/products?page=2");
     (Detail, "https://scrape-test-site.vercel.app/product/1");
     (Listing, "https://scrape-test-site.vercel.app/products?page=3")].
Proof. vm_compute. reflexivity. Qed.

Lemma C9_witness :
  ((exists resp details,
      requests (snd (scrape_page shop urljoin_rooted "all" 2
                       (init BASE_URL)))
      = ([] ++ mkRequest Listing
                 "https://scrape-test-site.vercel.app/products?page=2" resp
               :: details)%list
      /\ Forall (fun q => req_by q = Detail) details)
   /\ is_decimal_of 2 "2")
  /\ ((exists resp details,
       requests (snd (scrape_page shop urljoin_rooted "books" 12
                        (init BASE_URL)))
       = ([] ++ mkRequest Listing
                  "https://scrape-test-site.vercel.app/products/books?page=12"
                  resp
                :: details)%list
       /\ Forall (fun q => req_by q = Detail) details)
      /\ is_decimal_of 12 "12").
Proof.
  split.
  - exact (C9_listing_url_forms shop urljoin_rooted "all" 2 (init BASE_URL)).
  - exact (C9_listing_url_forms shop urljoin_rooted "books" 12
             (init BASE_URL)).
Defined.

(** * The further properties on the sample site *)

Lemma X1_witness :
  exists new st',
    parse_cards shop urljoin_rooted [lamp; unpriced; mug] [] (init BASE_URL)
    = (Ok ([] ++ new)%list, st')
    /\ map fields_of new
       = valid_fields urljoin_rooted BASE_URL [lamp; unpriced; mug].
Proof.
  apply (X1_valid_cards_in_order shop urljoin_rooted
           [lamp; unpriced; mug] [] (init BASE_URL)).
  repeat constructor; intros e H; vm_compute in H;
    try discriminate; injection H as <-; reflexivity.
Defined.

Example X1_on_catalog_page :
  valid_fields urljoin_rooted BASE_URL [lamp; unpriced; mug]
  = [fields_of lamp_record;
     ("Mug", FFinite (15 # 2), "A mug.", FFinite 3,
      BASE_URL ++ "/product/2")].
Proof. vm_compute. reflexivity. Qed.

Lemma X2_witness :
  parse_cards shop urljoin_rooted [lamp; unrated; mug] [] (init BASE_URL)
  = (Raise TypeError,
     logged shop Detail (BASE_URL ++ "/product/1") (init BASE_URL)).
Proof.
  apply (X2_uncaught_card_aborts shop urljoin_rooted [lamp] unrated [mug] []
           (init BASE_URL) [lamp_record]
           (logged shop Detail (BASE_URL ++ "/product/1") (init BASE_URL))
           TypeError);
    vm_compute; reflexivity.
Defined.

Lemma X3_witness : TypeError <> AttributeError /\ TypeError <> ValueError.
Proof.
  apply (X3_no_caught_exception_escapes unrated_shop urljoin_rooted "all"
           MAX_PAGES (init BASE_URL) TypeError).
  vm_compute. reflexivity.
Defined.

Lemma X4_witness :
  exists details,
    requests
      (snd (_parse_product_listing shop urljoin_rooted (listing [lamp])
              (init BASE_URL)))
    = (requests (init BASE_URL) ++ details)%list
    /\ Forall2 enriched_by [lamp_record] details.
Proof.
  apply (X4_one_detail_request_per_record shop urljoin_rooted
           (listing [lamp]) (init BASE_URL)).
  vm_compute. reflexivity.
Defined.

Lemma X5_witness :
  exists new_reqs new_data,
    requests
      (snd (scrape_products shop urljoin_rooted "all" MAX_PAGES
              (init BASE_URL)))
    = (requests (init BASE_URL) ++ new_reqs)%list
    /\ scraped_data
         (snd (scrape_products shop urljoin_rooted "all" MAX_PAGES
                 (init BASE_URL)))
       = (scraped_data (init BASE_URL) ++ new_data)%list
    /\ Forall2 enriched_by new_data (detail_requests new_reqs).
Proof.
  apply (X5_run_records_match_detail_requests shop urljoin_rooted "all"
           MAX_PAGES (init BASE_URL)).
  vm_compute. reflexivity.
Defined.

Lemma X6_witness :
  scrape_loop junk_shop urljoin_rooted "all" MAX_PAGES 1 (init BASE_URL)
  = (Ok tt,
     logged junk_shop Listing (listing_url BASE_URL "all" 1)
       (init BASE_URL)).
Proof.
  apply (X6_page_of_malformed_cards_stops_run junk_shop urljoin_rooted
           "all" MAX_PAGES 1 (init BASE_URL) (listing [unpriced; blank])).
  - unfold MAX_PAGES. lia.
  - reflexivity.
  - repeat constructor.
    + exists ValueError. split; reflexivity.
    + exists AttributeError. split; reflexivity.
Defined.

Lemma X7_witness :
  fst (_get_product_details shop (BASE_URL ++ "/product/1") (init BASE_URL))
  = Ok {| d_category := Some (PyStr.strip " Lighting ");
          d_in_stock :=
            Some (PyStr.contains "in stock" (PyStr.lower "In Stock")) |}.
Proof.
  apply (X7_stock_flag_of_status_text shop (BASE_URL ++ "/product/1")
           (init BASE_URL) detail_full (leaf " Lighting ")
           (leaf "In Stock"));
    reflexivity.
Defined.


Lemma X10_witness :
  snd (main shop urljoin_rooted disk write_disk names_text names_text
         "all" 0 true true [])
  = [].
Proof.
  apply (proj1 (X10_main_exports shop urljoin_rooted disk write_disk
                  names_text names_text "all" 0 true true [])).
  right. right. left. lia.
Defined.

Example main_exports_both :
  snd (main shop urljoin_rooted disk write_disk names_text names_text
         "all" MAX_PAGES true true [])
  = [("products.json", "Desk lamp,Mug"); ("products.csv", "Desk lamp,Mug")].
Proof. vm_compute. reflexivity. Qed.

Lemma X11_witness :
  trimmed (name lamp_record) = true
  /\ trimmed (description lamp_record) = true
  /\ forall c, category lamp_record = Some c -> trimmed c = true.
Proof.
  apply (X11_record_texts_trimmed shop urljoin_rooted lamp []
           (init BASE_URL) lamp_record
           (logged shop Detail (BASE_URL ++ "/product/1") (init BASE_URL))).
  vm_compute. reflexivity.
Defined.

Lemma X12_witness :
  exists new_reqs,
    requests
      (snd (scrape_products shop urljoin_rooted "all" MAX_PAGES
              (init BASE_URL)))
    = (requests (init BASE_URL) ++ new_reqs)%list
    /\ ((List.length (listing_requests new_reqs) < Z.to_nat MAX_PAGES)%nat ->
        exists earlier last,
          new_reqs = (earlier ++ [last])%list /\ req_by last = Listing).
Proof.
  apply (X12_early_stop_ends_on_listing shop urljoin_rooted "all" MAX_PAGES
           (init BASE_URL)).
  vm_compute. reflexivity.
Defined.
